(** * GroupMeBot: the command engine, its watcher, the webhook and the dispatcher

    A shallow embedding of [commands.py], [bot.py] (the watcher loop and the
    choice of the group), [callback_server.py], [api.py] (without
    [load_config]) and the views of [web_interface.py], followed by the
    properties the specification states about them and by further properties
    read off the code.  [run_bot] and [main] of [bot.py], which start threads
    and pass untyped configuration values on, are not embedded.

    Conventions of the embedding.
    - A Python [str] is a list of Unicode code points.
    - A value read from JSON (a message, the command table, a reply of the
      platform) is a [json] tree; a Python [dict] keeps its insertion order,
      so it is an association list whose first binding of a key is the live one.
    - A Python function that logs, talks to the network, assigns variables
      and may raise is a computation in [M]: from the store of mutable
      variables it gives the events it emits, in order, the store it leaves
      and either a value or the exception that left it.  An exception does not
      undo the assignments made before it.
    - What the world answers (the parsed request body, the reply to an HTTP
      call, the state of [commands.json]) is an argument of the function. *)

From Stdlib Require Import List String Ascii ZArith NArith Bool Lia.
Import ListNotations.

(* ================================================================== *)
(** ** Python strings *)

Module PyStr.

Definition char := N.
Definition str := list char.

(** A string literal of the source, as code points. *)
Definition lit (s : string) : str := map N_of_ascii (list_ascii_of_string s).

Fixpoint eqb (a b : str) : bool :=
  match a, b with
  | [], [] => true
  | x :: a', y :: b' => N.eqb x y && eqb a' b'
  | _, _ => false
  end.

(** [str.isspace] on one code point: the white space [str.strip()] removes
    when called without argument. *)
Definition isspace (c : char) : bool :=
  let between lo hi := (N.leb lo c && N.leb c hi)%bool in
  (between 9 13 || between 28 32 || N.eqb c 133 || N.eqb c 160
   || N.eqb c 5760 || between 8192 8202 || N.eqb c 8232 || N.eqb c 8233
   || N.eqb c 8239 || N.eqb c 8287 || N.eqb c 12288)%N%bool.

Fixpoint lstrip (s : str) : str :=
  match s with
  | c :: s' => if isspace c then lstrip s' else s
  | [] => []
  end.

Definition rstrip (s : str) : str := rev (lstrip (rev s)).

(** [s.strip()] *)
Definition strip (s : str) : str := rstrip (lstrip s).

(** [sep.join(parts)] on strings. *)
Fixpoint join (sep : str) (parts : list str) : str :=
  match parts with
  | [] => []
  | [p] => p
  | p :: rest => p ++ sep ++ join sep rest
  end.

(** [s] begins with [p]. *)
Definition starts_with (s p : str) : Prop := exists rest, s = p ++ rest.

Definition all_space (s : str) : Prop := Forall (fun c => isspace c = true) s.

(** Neither end of [s] is white space. *)
Definition trimmed (s : str) : Prop :=
  (forall c s', s = c :: s' -> isspace c = false) /\
  (forall c s', s = s' ++ [c] -> isspace c = false).

End PyStr.
Import PyStr.

(* ================================================================== *)
(** ** JSON values and Python dicts *)

#[local] Unset Elimination Schemes.
Inductive json : Type :=
| JNull                                  (* None *)
| JBool  (b : bool)
| JInt   (n : Z)
| JFloat (bits : Z)                      (* the 64 bits of a float *)
| JStr   (s : str)
| JList  (l : list json)
| JDict  (d : list (str * json)).
#[local] Set Elimination Schemes.

Definition dict := list (str * json).

Fixpoint dict_lookup (d : dict) (k : str) : option json :=
  match d with
  | [] => None
  | (k', v) :: d' => if eqb k' k then Some v else dict_lookup d' k
  end.

(** [d[k] = v]: the value is replaced where the key stands, a new key goes
    last. *)
Fixpoint dict_set (d : dict) (k : str) (v : json) : dict :=
  match d with
  | [] => [(k, v)]
  | (k', v') :: d' =>
      if eqb k' k then (k', v) :: d' else (k', v') :: dict_set d' k v
  end.

Definition is_dict (j : json) : bool :=
  match j with JDict _ => true | _ => false end.

(** [j == s] for a string [s]: only a string equals a string. *)
Definition eq_str (j : json) (s : str) : bool :=
  match j with JStr t => eqb t s | _ => false end.

(* ================================================================== *)
(** ** Exceptions, events and the monad of effects *)

(** The texts built by the f-strings that go into [Exception(...)]. *)
Inductive error_msg : Type :=
| BotNotFoundMsg   (bot_id : str)
| BotsGetFailedMsg (status : Z) (text : str)
| PostFailedMsg    (status : Z) (text : str).

(** Everything here derives from Python's [Exception]. *)
Inductive exn : Type :=
| AttributeError
| TypeError
| KeyError (k : str)
| FileNotFoundError
| JSONDecodeError
| BadRequest
| ConnectionError
| Exception (msg : error_msg).

Inductive level : Type := INFO | WARNING | ERROR.

(** One constructor per logging call of the source, with the values its
    message interpolates. *)
Inductive log_msg : Type :=
| ProcessMessageCalled
| ProcessingMessage (text : str)
| InvalidResponseFormat (text : str) (response_data : json)
| CommandsLoaded
| CommandsFileNotFound
| MalformedCommands
| CommandsUpdated
| FailedReload (e : exn)
| CorrectCallback (bot_id callback_url : str)
| IncorrectCallback (bot_id : str) (current_url : json) (callback_url : str)
| BotNotFound (bot_id : str)
| BotsGetFailed (status : Z) (text : str)
| LogData (data : json)
| MessagePosted
| PostFailed (status : Z) (text : str)
| ReceivedCallback (data : json)
| RespondingWith (response : str)
| ErrorProcessingCallback (e : exn).

Inductive event : Type :=
| Log      (lv : level) (m : log_msg)
| HttpGet  (url : str) (params : list (str * str))
| HttpPost (url : str) (params : list (str * str)) (body : json)
| Stat                                   (* os.path.getmtime("commands.json") *)
| OpenCommands                           (* open("commands.json", "r") *)
| Sleep    (seconds : Z).

Inductive result (A : Type) : Type :=
| Ok    (a : A)
| Raise (e : exn).
Arguments Ok {A} a.
Arguments Raise {A} e.

(** The mutable variables: the global [COMMANDS] of [commands.py] and the
    local [last_mtime] of the watcher loop. *)
Record store : Type := mkStore {
  COMMANDS   : json;
  last_mtime : option Z
}.

Module Eff.

Definition M (A : Type) : Type := store -> list event * store * result A.

Definition ret {A} (a : A) : M A := fun s => ([], s, Ok a).

Definition raise {A} (e : exn) : M A := fun s => ([], s, Raise e).

Definition emit (ev : event) : M unit := fun s => ([ev], s, Ok tt).

Definition log (lv : level) (m : log_msg) : M unit := emit (Log lv m).

(** An answer of the outside world, which is a value or an exception. *)
Definition lift {A} (r : result A) : M A := fun s => ([], s, r).

Definition read_COMMANDS : M json := fun s => ([], s, Ok (COMMANDS s)).

Definition write_COMMANDS (c : json) : M unit :=
  fun s => ([], mkStore c (last_mtime s), Ok tt).

Definition read_last_mtime : M (option Z) := fun s => ([], s, Ok (last_mtime s)).

Definition write_last_mtime (t : option Z) : M unit :=
  fun s => ([], mkStore (COMMANDS s) t, Ok tt).

Definition bind {A B} (m : M A) (f : A -> M B) : M B :=
  fun s =>
    match m s with
    | (t, s', Ok a) => let '(t', s'', r) := f a s' in (t ++ t', s'', r)
    | (t, s', Raise e) => (t, s', Raise e)
    end.

(** [try: m  except Exception as e: h e].  The handler starts from the store
    the body left. *)
Definition try_except {A} (m : M A) (h : exn -> M A) : M A :=
  fun s =>
    match m s with
    | (t, s', Ok a) => (t, s', Ok a)
    | (t, s', Raise e) => let '(t', s'', r) := h e s' in (t ++ t', s'', r)
    end.

Definition trace {A} (x : list event * store * result A) : list event :=
  fst (fst x).
Definition final {A} (x : list event * store * result A) : store :=
  snd (fst x).
Definition outcome {A} (x : list event * store * result A) : result A :=
  snd x.

End Eff.
Import Eff.

Declare Scope eff_scope.
Delimit Scope eff_scope with eff.
Notation "x <- m ;; k" := (bind m (fun x => k))
  (at level 61, m at next level, right associativity) : eff_scope.
Notation "m ;; k" := (bind m (fun _ => k))
  (at level 61, right associativity) : eff_scope.
Open Scope eff_scope.

(* ================================================================== *)
(** ** The operations of Python the source uses on JSON values *)

(** [d.get(key, default)] on a dict. *)
Definition dict_get (d : dict) (key : str) (default : json) : json :=
  match dict_lookup d key with
  | Some v => v
  | None => default
  end.

(** [obj.get(key, default)]: only a dict has [get]. *)
Definition py_get (obj : json) (key : str) (default : json) : M json :=
  match obj with
  | JDict d => ret (dict_get d key default)
  | _ => raise AttributeError
  end.

(** [obj[key]] with a string key. *)
Definition py_getitem (obj : json) (key : str) : M json :=
  match obj with
  | JDict d => match dict_lookup d key with
               | Some v => ret v
               | None => raise (KeyError key)
               end
  | _ => raise TypeError
  end.

(** [obj[key] = v] with a string key, giving the object after the
    assignment. *)
Definition py_setitem (obj : json) (key : str) (v : json) : M json :=
  match obj with
  | JDict d => ret (JDict (dict_set d key v))
  | _ => raise TypeError
  end.

(** The items [for x in obj] goes through. *)
Definition py_iter (obj : json) : M (list json) :=
  match obj with
  | JList l => ret l
  | JDict d => ret (map (fun kv => JStr (fst kv)) d)
  | JStr s => ret (map (fun c => JStr [c]) s)
  | _ => raise TypeError
  end.

(** [obj.strip()]: only a string has [strip]. *)
Definition py_strip (obj : json) : M str :=
  match obj with
  | JStr s => ret (strip s)
  | _ => raise AttributeError
  end.

(** The strings of a list of values, when they all are strings. *)
Fixpoint all_strs (l : list json) : option (list str) :=
  match l with
  | [] => Some []
  | JStr s :: l' => option_map (cons s) (all_strs l')
  | _ :: _ => None
  end.

(** [sep.join(items)]: every item has to be a string. *)
Definition py_join (sep : str) (items : list json) : M str :=
  match all_strs items with
  | Some parts => ret (join sep parts)
  | None => raise TypeError
  end.

(* ================================================================== *)
(** ** commands.py *)

(** What is on disk under the name [commands.json] at one moment: nothing,
    or a file with its modification time and, when its bytes are JSON, the
    value they parse to.  The content [None] is text that [json.load] rejects
    with [JSONDecodeError]; bytes that are no text at all, on which it raises
    [UnicodeDecodeError], are not among these states. *)
Inductive file_state : Type :=
| Missing
| Present (mtime : Z) (content : option json).

(** [with open("commands.json", "r") as f: json.load(f)] *)
Definition read_json_file (f : file_state) : M json :=
  emit OpenCommands ;;
  match f with
  | Missing => raise FileNotFoundError
  | Present _ None => raise JSONDecodeError
  | Present _ (Some v) => ret v
  end.

Definition load_commands (f : file_state) : M json :=
  try_except
    (commands <- read_json_file f ;;
     log INFO CommandsLoaded ;;
     ret commands)
    (fun e =>
       match e with
       | FileNotFoundError => log ERROR CommandsFileNotFound ;; raise e
       | JSONDecodeError => log ERROR MalformedCommands ;; raise e
       | _ => raise e
       end).

(** The lock taken around the assignment has no effect on a single thread
    and is left out, here and in [process_message]. *)
Definition update_commands (commands : json) : M unit :=
  write_COMMANDS commands ;;
  log INFO CommandsUpdated.

(** [[item.get("responseLine1", "") for item in response_data
      if isinstance(item, dict)]] *)
Fixpoint response_lines (response_data : list json) : list json :=
  match response_data with
  | [] => []
  | JDict d :: rest =>
      dict_get d (lit "responseLine1") (JStr (lit "")) :: response_lines rest
  | _ :: rest => response_lines rest
  end.

Definition newline : str := lit (String "010" "").

(** A response-line record with its display text: an object whose
    ["responseLine1"] is that string. *)
Definition line_record (item : json) (display : str) : Prop :=
  exists d, item = JDict d /\
            dict_lookup d (lit "responseLine1") = Some (JStr display).

(** An object without the field ["responseLine1"]. *)
Definition lacks_line (item : json) : Prop :=
  exists d, item = JDict d /\ dict_lookup d (lit "responseLine1") = None.

(** The stored values the last branch of [process_message] is for: a
    boolean, a number or an object. *)
Definition unexpected_format (v : json) : bool :=
  match v with
  | JBool _ | JInt _ | JFloat _ | JDict _ => true
  | JNull | JStr _ | JList _ => false
  end.

Definition process_message (message : json) : M (option str) :=
  log INFO ProcessMessageCalled ;;
  sender_type <- py_get message (lit "sender_type") JNull ;;
  if eq_str sender_type (lit "bot") then
    (* Ignore bot messages to prevent loops *)
    ret None
  else
    raw <- py_get message (lit "text") (JStr (lit "")) ;;
    text <- py_strip raw ;;
    log INFO (ProcessingMessage text) ;;
    commands <- read_COMMANDS ;;
    response_data <- py_get commands text JNull ;;
    match response_data with
    | JNull => ret None
    | JList items =>
        let lines := response_lines items in
        match lines with
        | [] => ret None
        | _ :: _ => joined <- py_join newline lines ;; ret (Some joined)
        end
    | JStr s => ret (Some s)
    | _ =>
        log WARNING (InvalidResponseFormat text response_data) ;;
        ret None
    end.

(* ================================================================== *)
(** ** bot.py: the watcher *)

(** [os.path.getmtime("commands.json")].  The time is a float in the source;
    only its order is used, so an integer stands for it. *)
Definition getmtime (f : file_state) : M Z :=
  emit Stat ;;
  match f with
  | Missing => raise FileNotFoundError
  | Present t _ => ret t
  end.

(** What one turn of the loop finds: the file when its time is read and the
    file when it is opened. *)
Record tick : Type := mkTick {
  at_stat : file_state;
  at_open : file_state
}.

(** [last_mtime is None or current_mtime > last_mtime] *)
Definition reload_due (last : option Z) (current_mtime : Z) : bool :=
  match last with
  | None => true
  | Some l => Z.ltb l current_mtime
  end.

(** The body of [while True:] in [monitor_commands]. *)
Definition monitor_iteration (i : tick) : M unit :=
  try_except
    (current_mtime <- getmtime (at_stat i) ;;
     last <- read_last_mtime ;;
     if reload_due last current_mtime then
       commands <- load_commands (at_open i) ;;
       update_commands commands ;;
       write_last_mtime (Some current_mtime)
     else ret tt)
    (fun e => log ERROR (FailedReload e)) ;;
  emit (Sleep 5).

(** The loop runs for ever; [monitor_loop] is its first [length ticks] turns. *)
Fixpoint monitor_loop (ticks : list tick) : M unit :=
  match ticks with
  | [] => ret tt
  | i :: rest => monitor_iteration i ;; monitor_loop rest
  end.

Definition monitor_commands (ticks : list tick) : M unit :=
  write_last_mtime None ;;
  monitor_loop ticks.

(* ================================================================== *)
(** ** api.py *)

Definition BASE_URL : str := lit "https://api.groupme.com/v3".

(** What [requests] hands back: the status, the body as text and the body as
    [response.json()] gives it. *)
Record response : Type := mkResponse {
  status_code : Z;
  text_body   : str;
  json_body   : result json
}.

(** [requests.get(url, params=params)], answered by the platform. *)
Definition requests_get (url : str) (params : list (str * str))
    (answer : result response) : M response :=
  emit (HttpGet url params) ;;
  lift answer.

(** [requests.post(url, json=data, params=params)] *)
Definition requests_post (url : str) (params : list (str * str)) (data : json)
    (answer : result response) : M response :=
  emit (HttpPost url params data) ;;
  lift answer.

(** The [for bot in bots:] loop of [check_bot_callback], giving [found] and
    [update_callback]. *)
Fixpoint scan_bots (bot_id callback_url : str) (bots : list json)
    : M (bool * option json) :=
  match bots with
  | [] => ret (false, None)
  | bot :: rest =>
      id <- py_getitem bot (lit "bot_id") ;;
      if eq_str id bot_id then
        registered <- py_get bot (lit "callback_url") JNull ;;
        if eq_str registered callback_url then
          log INFO (CorrectCallback bot_id callback_url) ;;
          ret (true, None)
        else
          current_url <- py_get bot (lit "callback_url") (JStr (lit "None")) ;;
          log WARNING (IncorrectCallback bot_id current_url callback_url) ;;
          bot' <- py_setitem bot (lit "callback_url") (JStr callback_url) ;;
          ret (true, Some bot')
      else scan_bots bot_id callback_url rest
  end.

Definition check_bot_callback (token bot_id callback_url : str)
    (answer : result response) : M unit :=
  let url := BASE_URL ++ lit "/bots" in
  let params := [(lit "token", token)] in
  resp <- requests_get url params answer ;;
  update_callback <-
    (if Z.eqb (status_code resp) 200 then
       body <- lift (json_body resp) ;;
       listed <- py_getitem body (lit "response") ;;
       bots <- py_iter listed ;;
       scanned <- scan_bots bot_id callback_url bots ;;
       if fst scanned then ret (snd scanned)
       else
         log WARNING (BotNotFound bot_id) ;;
         raise (Exception (BotNotFoundMsg bot_id))
     else
       log ERROR (BotsGetFailed (status_code resp) (text_body resp)) ;;
       raise (Exception (BotsGetFailedMsg (status_code resp) (text_body resp)))) ;;
  match update_callback with
  | Some bot =>
      let data := JDict [(lit "bot", bot)] in
      log INFO (LogData data)
  | None => ret tt
  end.

Definition create_text_data (bot_id text : str) : json :=
  JDict [(lit "bot_id", JStr bot_id);
         (lit "text", JStr text)].

Definition create_image_data (bot_id img_url : str) : json :=
  JDict [(lit "bot_id", JStr bot_id);
         (lit "text", JStr (lit ""));
         (lit "attachments",
          JList [JDict [(lit "type", JStr (lit "image"));
                        (lit "url", JStr img_url)]])].

(** [token] is accepted and not used, as in the source. *)
Definition post_message (token bot_id text : str) (answer : result response)
    : M bool :=
  let url := BASE_URL ++ lit "/bots/post" in
  let data :=
    if eqb (firstn 10 text) (lit "https://i.")
    then create_image_data bot_id text
    else create_text_data bot_id text in
  resp <- requests_post url [] data answer ;;
  if Z.eqb (status_code resp) 201 || Z.eqb (status_code resp) 202 then
    log INFO MessagePosted ;;
    ret true
  else
    log ERROR (PostFailed (status_code resp) (text_body resp)) ;;
    raise (Exception (PostFailedMsg (status_code resp) (text_body resp))).

(* ================================================================== *)
(** ** callback_server.py *)

(** [handle_callback()].  [TOKEN] and [BOT_ID] are the module's constants,
    [request_json] is what [request.get_json()] gives for the body posted,
    [answer] what the platform replies if a message is sent. *)
Definition handle_callback (TOKEN BOT_ID : str) (request_json : result json)
    (answer : result response) : M (str * Z) :=
  try_except
    (data <- lift request_json ;;
     log INFO (ReceivedCallback data) ;;
     resp <- process_message data ;;
     match resp with
     | Some ((_ :: _) as r) =>
         (* [if response:] holds of a string that is not empty *)
         log INFO (RespondingWith r) ;;
         _ <- post_message TOKEN BOT_ID r answer ;;
         ret tt
     | _ => ret tt
     end)
    (fun e => log ERROR (ErrorProcessingCallback e)) ;;
  ret (lit "", 200%Z).

(* ------------------------------------------------------------------ *)
(** Observations on a run, used to state the properties. *)

(** Loading fails at a turn of the watcher: the file is missing when its
    time is read or when it is opened, or what is opened does not parse. *)
Definition load_fails (i : tick) : bool :=
  match at_stat i, at_open i with
  | Missing, _ => true
  | _, Missing => true
  | _, Present _ None => true
  | _, Present _ (Some _) => false
  end.

(** The file seen at a turn is newer than the time [last] applied. *)
Definition due (last : option Z) (i : tick) : bool :=
  match at_stat i with
  | Missing => false
  | Present t _ => reload_due last t
  end.

Definition is_open (ev : event) : bool :=
  match ev with OpenCommands => true | _ => false end.

Definition is_stat (ev : event) : bool :=
  match ev with Stat => true | _ => false end.

(** How many times the command file was opened, and its time read. *)
Definition load_attempts (t : list event) : nat := List.length (filter is_open t).
Definition stat_attempts (t : list event) : nat := List.length (filter is_stat t).

Definition is_http (ev : event) : bool :=
  match ev with HttpGet _ _ | HttpPost _ _ _ => true | _ => false end.

(** The requests sent to the platform, in order. *)
Definition requests_sent (t : list event) : list event := filter is_http t.

(** A computation that sends nothing to the platform and assigns nothing. *)
Definition quiet {A} (m : M A) : Prop :=
  forall st, requests_sent (trace (m st)) = [] /\ final (m st) = st.

(** An entry of the list of bots that is a bot with another id. *)
Definition other_bot (bot_id : str) (entry : json) : Prop :=
  exists d id, entry = JDict d /\
               dict_lookup d (lit "bot_id") = Some id /\
               eq_str id bot_id = false.

(** A turn at which the file is there, with time [t], and parses to
    [commands]. *)
Definition good_file (t : Z) (commands : json) : tick :=
  mkTick (Present t (Some commands)) (Present t (Some commands)).

(* ------------------------------------------------------------------ *)
(** Inputs used by the examples below. *)

Definition record (text : string) : json :=
  JDict [(lit "responseLine1", JStr (lit text))].

Definition table_AB : json :=
  JDict [(lit "!ping", JList [record "pong"]);
         (lit "!info", JList [record "line1"; record "line2"])].

Definition human (text : string) : json :=
  JDict [(lit "sender_type", JStr (lit "human")); (lit "text", JStr (lit text))].

Definition serving (table : json) : store := mkStore table None.

Definition from_bot (text : string) : json :=
  JDict [(lit "sender_type", JStr (lit "bot")); (lit "text", JStr (lit text))].

Definition as_dict (j : json) : dict :=
  match j with JDict d => d | _ => [] end.

(** A table with entries of every shape. *)
Definition table_odd : json :=
  JDict [(lit "!null", JNull);
         (lit "!five", JInt 5);
         (lit "!legacy", JStr (lit "plain"));
         (lit "!num", JList [JDict [(lit "responseLine1", JInt 1)]]);
         (lit "!bare", JList [JDict []]);
         (lit "!mixed", JList [JInt 7; record "kept"; JNull]);
         (lit "!nodict", JList [JInt 7; JStr (lit "x")])].

(** A file that does not parse, last changed at time 5. *)
Definition broken : tick := mkTick (Present 5 None) (Present 5 None).

(** The file is gone. *)
Definition gone : tick := mkTick Missing Missing.

(** The platform lists two bots; the second is ours, registered with
    another URL. *)
Definition two_bots : response :=
  mkResponse 200 (lit "")
    (Ok (JDict [(lit "response",
                 JList [JDict [(lit "bot_id", JStr (lit "b0"));
                               (lit "callback_url", JStr (lit "https://a"))];
                        JDict [(lit "bot_id", JStr (lit "b1"));
                               (lit "callback_url", JStr (lit "https://old"))]])])).


(* ------------------------------------------------------------------ *)
(** Further observations, for the properties beyond the specification. *)

Definition is_sleep5 (ev : event) : bool :=
  match ev with Sleep z => Z.eqb z 5 | _ => false end.

(** How many times the watcher slept its five seconds. *)
Definition naps (t : list event) : nat := List.length (filter is_sleep5 t).

(** [c] is what some turn of [ticks] found in the file it opened. *)
Definition installed_from (ticks : list tick) (c : json) : Prop :=
  exists i t, In i ticks /\ at_open i = Present t (Some c).

(** The time applied moved forward: from nothing to a time, or to a later
    time. *)
Definition mtime_lt (a b : option Z) : Prop :=
  match a, b with
  | None, Some _ => True
  | Some x, Some y => (x < y)%Z
  | _, None => False
  end.

(** At this turn the file is gone or not newer than [l]. *)
Definition not_newer (l : Z) (i : tick) : Prop :=
  match at_stat i with
  | Missing => True
  | Present t _ => (t <= l)%Z
  end.

(* ================================================================== *)
(** ** The rest of the program: its exceptions, events and effects

    The functions of [api.py] that fetch and create, [setup_bot] of [bot.py]
    and the handlers of [web_interface.py] log other lines, raise other
    exceptions and write [commands.json].  They run in [W], which has the
    events and exceptions of [M] among its own and carries the file beside
    the store. *)

(** The texts of the [Exception(...)] raised outside the engine. *)
Inductive failure : Type :=
| ApiRequestFailed    (status : Z) (text : str)
| FetchGroupsFailed   (status : Z) (text : str)
| FetchMessagesFailed (status : Z) (text : str)
| CreateBotFailed     (status : Z) (text : str)
| NoGroupsFound.

Inductive error : Type :=
| CoreError (e : exn)
| Failure (f : failure)
| UnboundLocalError (name : str)
| IndexError
| KeyErrorInt (k : Z)
| OSError (errno : Z).

(** The log lines outside the engine, with the values they interpolate. *)
Inductive note : Type :=
| LogFailure (f : failure)
| AuthenticatedAs (name id : json)
| YourGroups
| GroupLine (position : Z) (name id : json)
| UsingSavedGroup (name : json) (saved_group_id : str)
| SavedGroupMissing (saved_group_id : str)
| UsingFirstGroup (name group_id : json)
| BotCreated (bot_id : json)
| CommandsSaved
| ErrorSaving (e : error)
| ErrorLoadingCommands (e : error)
| ErrorAdding (e : error)
| ErrorLoadingCommand (command : str) (e : error)
| ErrorSavingCommand (command : str) (e : error)
| ErrorDeleting (e : error).

Inductive category : Type := error_category | success_category.

(** The messages flashed to the browser. *)
Inductive flash_msg : Type :=
| EmptyName
| AlreadyExists (command : str)
| Added (command : str)
| NotFound (command : str)
| Updated (command : str)
| Deleted (command : str)
| NoCommand
| ErrorText (e : error).

Inductive action : Type :=
| Did   (ev : event)                         (* an event of the engine *)
| Note  (lv : level) (n : note)
| Get   (url : str) (params : list (str * json))
| OpenW                                      (* open("commands.json", "w") *)
| Dump  (content : json)                     (* json.dump(commands, f, indent=4) *)
| Flash (m : flash_msg) (c : category).

Inductive ending (A : Type) : Type :=
| Done   (a : A)
| Thrown (e : error).
Arguments Done {A} a.
Arguments Thrown {A} e.

(** The store and the file [commands.json]. *)
Record world : Type := mkWorld {
  mem           : store;
  commands_json : file_state
}.

Module Sys.

Definition W (A : Type) : Type := world -> list action * world * ending A.

Definition done {A} (a : A) : W A := fun w => ([], w, Done a).

Definition throw {A} (e : error) : W A := fun w => ([], w, Thrown e).

Definition act (a : action) : W unit := fun w => ([a], w, Done tt).

Definition log_note (lv : level) (n : note) : W unit := act (Note lv n).

Definition flash (m : flash_msg) (c : category) : W unit := act (Flash m c).

Definition and_then {A B} (m : W A) (f : A -> W B) : W B :=
  fun w =>
    match m w with
    | (t, w', Done a) => let '(t', w'', r) := f a w' in (t ++ t', w'', r)
    | (t, w', Thrown e) => (t, w', Thrown e)
    end.

(** [try: m  except Exception as e: h e] *)
Definition attempt {A} (m : W A) (h : error -> W A) : W A :=
  fun w =>
    match m w with
    | (t, w', Done a) => (t, w', Done a)
    | (t, w', Thrown e) => let '(t', w'', r) := h e w' in (t ++ t', w'', r)
    end.

(** A computation of the engine, run on the store of the world. *)
Definition core {A} (m : M A) : W A :=
  fun w =>
    let '(t, s, r) := m (mem w) in
    (map Did t, mkWorld s (commands_json w),
     match r with
     | Ok a => Done a
     | Raise e => Thrown (CoreError e)
     end).

(** What [m] ends with, as a value. *)
Definition capture {A} (m : W A) : W (ending A) :=
  fun w => let '(t, w', r) := m w in (t, w', Done r).

Definition read_file : W file_state := fun w => ([], w, Done (commands_json w)).

Definition write_file (f : file_state) : W unit :=
  fun w => ([], mkWorld (mem w) f, Done tt).

Definition actions {A} (x : list action * world * ending A) : list action :=
  fst (fst x).
Definition after {A} (x : list action * world * ending A) : world :=
  snd (fst x).
Definition result_of {A} (x : list action * world * ending A) : ending A :=
  snd x.

End Sys.
Import Sys.

Declare Scope sys_scope.
Delimit Scope sys_scope with sys.
Notation "x <- m ;; k" := (and_then m (fun x => k))
  (at level 61, m at next level, right associativity) : sys_scope.
Notation "m ;; k" := (and_then m (fun _ => k))
  (at level 61, right associativity) : sys_scope.

(** *** More of Python on JSON values *)

Definition two63 : Z := 9223372036854775808.

(** [bool(obj)]: [None], [False], zero and what is empty are false. *)
Definition py_truthy (obj : json) : bool :=
  match obj with
  | JNull => false
  | JBool b => b
  | JInt n => negb (Z.eqb n 0)
  | JFloat bits => negb (Z.eqb bits 0 || Z.eqb bits two63)
  | JStr s => match s with [] => false | _ :: _ => true end
  | JList l => match l with [] => false | _ :: _ => true end
  | JDict d => match d with [] => false | _ :: _ => true end
  end.

Fixpoint prefixb (p s : str) : bool :=
  match p, s with
  | [], _ => true
  | x :: p', y :: s' => N.eqb x y && prefixb p' s'
  | _ :: _, [] => false
  end.

(** [p in s] on strings. *)
Fixpoint is_infix (p s : str) : bool :=
  match s with
  | [] => prefixb p []
  | _ :: s' => prefixb p s || is_infix p s'
  end.

(** [item in container] for a string [item]: a key of a dict, an element of
    a list, a part of a string. *)
Definition py_contains (container : json) (item : str) : M bool :=
  match container with
  | JDict d => Eff.ret (match dict_lookup d item with
                        | Some _ => true
                        | None => false
                        end)
  | JList l => Eff.ret (existsb (fun x => eq_str x item) l)
  | JStr s => Eff.ret (is_infix item s)
  | _ => Eff.raise TypeError
  end.

(** The dict without the key. *)
Definition dict_del (d : dict) (k : str) : dict :=
  filter (fun kv => negb (eqb (fst kv) k)) d.

(** [del container[key]] with a string key, giving the object after it. *)
Definition py_delitem (container : json) (key : str) : M json :=
  match container with
  | JDict d => match dict_lookup d key with
               | Some _ => Eff.ret (JDict (dict_del d key))
               | None => Eff.raise (KeyError key)
               end
  | _ => Eff.raise TypeError
  end.

(** [obj[0]] *)
Definition py_first (obj : json) : W json :=
  match obj with
  | JList (x :: _) => done x
  | JList [] => throw IndexError
  | JStr (c :: _) => done (JStr [c])
  | JStr [] => throw IndexError
  | JDict _ => throw (KeyErrorInt 0)
  | _ => throw (CoreError TypeError)
  end.

Open Scope sys_scope.

(** *** api.py: fetching and creating *)

(** [requests.get(url, params=params)] with parameters that are not all
    strings. *)
Definition requests_get_json (url : str) (params : list (str * json))
    (reply : result response) : W response :=
  act (Get url params) ;;
  core (lift reply).

Definition get_authenticated_user (token : str) (reply : result response)
    : W json :=
  let url := BASE_URL ++ lit "/users/me" in
  let params := [(lit "token", token)] in
  resp <- core (requests_get url params reply) ;;
  if Z.eqb (status_code resp) 200 then
    body <- core (lift (json_body resp)) ;;
    core (py_getitem body (lit "response"))
  else
    let error_msg := ApiRequestFailed (status_code resp) (text_body resp) in
    log_note ERROR (LogFailure error_msg) ;;
    throw (Failure error_msg).

Definition get_user_groups (token : str) (reply : result response) : W json :=
  let url := BASE_URL ++ lit "/groups" in
  let params := [(lit "token", JStr token); (lit "per_page", JInt 10)] in
  resp <- requests_get_json url params reply ;;
  if Z.eqb (status_code resp) 200 then
    body <- core (lift (json_body resp)) ;;
    core (py_getitem body (lit "response"))
  else
    let error_msg := FetchGroupsFailed (status_code resp) (text_body resp) in
    log_note ERROR (LogFailure error_msg) ;;
    throw (Failure error_msg).

(** [since_id] is [None] when [since_id] is not given. *)
Definition get_group_messages (token group_id : str) (since_id : option str)
    (reply : result response) : W json :=
  let url := BASE_URL ++ lit "/groups/" ++ group_id ++ lit "/messages" in
  let params := [(lit "token", JStr token); (lit "limit", JInt 20)] in
  let params :=
    match since_id with
    | Some ((_ :: _) as id) => params ++ [(lit "since_id", JStr id)]
    | _ => params
    end in
  resp <- requests_get_json url params reply ;;
  if Z.eqb (status_code resp) 200 then
    body <- core (lift (json_body resp)) ;;
    inner <- core (py_getitem body (lit "response")) ;;
    core (py_getitem inner (lit "messages"))
  else if Z.eqb (status_code resp) 304 then
    (* No new messages *)
    done (JList [])
  else
    let error_msg := FetchMessagesFailed (status_code resp) (text_body resp) in
    log_note ERROR (LogFailure error_msg) ;;
    throw (Failure error_msg).

(** The default of [bot_name]. *)
Definition MyBot : str := lit "MyBot".

Definition create_bot (token : str) (group_id : json) (bot_name : str)
    (callback_url : option str) (reply : result response) : W json :=
  let url := BASE_URL ++ lit "/bots" in
  let bot := [(lit "name", JStr bot_name); (lit "group_id", group_id)] in
  let bot :=
    match callback_url with
    | Some ((_ :: _) as u) => dict_set bot (lit "callback_url") (JStr u)
    | _ => bot
    end in
  let data := JDict [(lit "bot", JDict bot)] in
  let params := [(lit "token", token)] in
  resp <- core (requests_post url params data reply) ;;
  if Z.eqb (status_code resp) 201 then
    body <- core (lift (json_body resp)) ;;
    inner <- core (py_getitem body (lit "response")) ;;
    bot_id <- core (py_getitem inner (lit "bot_id")) ;;
    log_note INFO (BotCreated bot_id) ;;
    done bot_id
  else
    let error_msg := CreateBotFailed (status_code resp) (text_body resp) in
    log_note ERROR (LogFailure error_msg) ;;
    throw (Failure error_msg).

(** *** bot.py: the choice of the group *)

(** [for i, group in enumerate(groups): logger.info(...)], from position
    [i]. *)
Fixpoint log_groups (i : Z) (groups : list json) : W unit :=
  match groups with
  | [] => done tt
  | group :: rest =>
      name <- core (py_getitem group (lit "name")) ;;
      id <- core (py_getitem group (lit "id")) ;;
      log_note INFO (GroupLine (i + 1) name id) ;;
      log_groups (i + 1) rest
  end.

(** [next((group for group in groups if group['id'] == saved_group_id),
    None)] *)
Fixpoint find_group (saved_group_id : str) (groups : list json) : W json :=
  match groups with
  | [] => done JNull
  | group :: rest =>
      id <- core (py_getitem group (lit "id")) ;;
      if eq_str id saved_group_id then done group
      else find_group saved_group_id rest
  end.

(** [saved_group_id] is a string or [None]; [me] and [listing] are what the
    platform answers to the two requests.  [callback_url] is accepted and
    not used, as in the source. *)
Definition setup_bot (token callback_url : str) (saved_group_id : option str)
    (me listing : result response) : W json :=
  user_info <- get_authenticated_user token me ;;
  name <- core (py_getitem user_info (lit "name")) ;;
  id <- core (py_getitem user_info (lit "id")) ;;
  log_note INFO (AuthenticatedAs name id) ;;
  groups <- get_user_groups token listing ;;
  if negb (py_truthy groups) then
    log_note ERROR (LogFailure NoGroupsFound) ;;
    throw (Failure NoGroupsFound)
  else
    log_note INFO YourGroups ;;
    items <- core (py_iter groups) ;;
    log_groups 0 items ;;
    match saved_group_id with
    | Some ((_ :: _) as saved) =>
        saved_group <- find_group saved items ;;
        if py_truthy saved_group then
          name <- core (py_getitem saved_group (lit "name")) ;;
          log_note INFO (UsingSavedGroup name saved) ;;
          done (JStr saved)
        else
          log_note WARNING (SavedGroupMissing saved) ;;
          first <- py_first groups ;;
          core (py_getitem first (lit "id"))
    | _ =>
        first <- py_first groups ;;
        group_id <- core (py_getitem first (lit "id")) ;;
        first <- py_first groups ;;
        name <- core (py_getitem first (lit "name")) ;;
        log_note INFO (UsingFirstGroup name group_id) ;;
        done group_id
    end.

(** *** web_interface.py *)

(** What the disk does with a write: it takes it, at time [t]; it refuses to
    open the file; or it fails after the file was truncated, at time [t]. *)
Inductive write_answer : Type :=
| Written    (t : Z)
| OpenFailed (errno : Z)
| DumpFailed (t : Z) (errno : Z).

(** The lock taken on the file has no effect on a single thread and is left
    out; what is written is read back as the same value. *)
Definition save_commands (commands : json) (disk : write_answer) : W unit :=
  attempt
    (act OpenW ;;
     match disk with
     | OpenFailed errno => throw (OSError errno)
     | Written t =>
         act (Dump commands) ;;
         write_file (Present t (Some commands))
     | DumpFailed t errno =>
         act (Dump commands) ;;
         write_file (Present t None) ;;
         throw (OSError errno)
     end ;;
     log_note INFO CommandsSaved)
    (fun e => log_note ERROR (ErrorSaving e) ;; throw e).

(** A name or a password of the request, as a value: the string, or [None]
    when the [Authorization] header does not carry one. *)
Definition credential_of (c : option str) : json :=
  match c with
  | Some v => JStr v
  | None => JNull
  end.

(** [c == j] for a credential [c] and a value [j] of the configuration:
    a string equals that string only, [None] equals null only. *)
Definition eq_credential (j : json) (c : option str) : bool :=
  match c with
  | Some v => eq_str j v
  | None => match j with JNull => true | _ => false end
  end.

(** [config] is the dict read from [config.json] when the module is
    loaded. *)
Definition check_auth (config : dict) (username password : option str)
    : bool :=
  eq_credential (dict_get config (lit "admin_username") (JStr (lit "admin")))
    username
  && eq_credential (dict_get config (lit "admin_password") (JStr (lit "secret")))
       password.

(** What a view returns to the browser. *)
Inductive reply : Type :=
| Template   (name : str) (args : list (str * json))   (* render_template *)
| RedirectTo (endpoint : str) (args : list (str * str)) (* redirect(url_for(..)) *)
| Body       (text : error) (status : Z)                (* str(e), 500 *)
| LoginRequired.                                        (* authenticate() *)

Definition authenticate : reply := LoginRequired.

(** [auth] is [request.authorization]: [None] without the header, or an
    object, which counts as true, with its [username] and its [password],
    each a string or [None]. *)
Definition require_auth (config : dict)
    (auth : option (option str * option str)) (f : W reply) : W reply :=
  match auth with
  | Some (username, password) =>
      if check_auth config username password then f else done authenticate
  | None => done authenticate
  end.

(** [load_commands()] on the file as it is now. *)
Definition load_now : W json :=
  f <- read_file ;;
  core (load_commands f).

Definition show_commands : W reply :=
  attempt
    (commands <- load_now ;;
     done (Template (lit "commands.html") [(lit "commands", commands)]))
    (fun e =>
       log_note ERROR (ErrorLoadingCommands e) ;;
       done (Body e 500)).

(** [[{"responseLine1": r.strip()} for r in responses if r.strip()]] *)
Definition response_records (responses : list str) : list json :=
  map (fun r => JDict [(lit "responseLine1", JStr (strip r))])
      (filter (fun r => match strip r with [] => false | _ :: _ => true end)
              responses).

Definition add_form (new_command : str) (responses : list str) : reply :=
  Template (lit "add_command.html")
    [(lit "new_command", JStr new_command);
     (lit "responses", JList (map JStr responses))].

(** [field] is the form's ["new_command"], when it has one, and [responses]
    its ["response[]"] values.  The handler of [except] reads [new_command]
    and [responses], which are assigned once [load_commands()] has returned:
    when that call raised they are unbound. *)
Definition add_command (field : option str) (responses : list str)
    (disk : write_answer) : W reply :=
  loaded <- capture load_now ;;
  match loaded with
  | Thrown e =>
      log_note ERROR (ErrorAdding e) ;;
      flash (ErrorText e) error_category ;;
      throw (UnboundLocalError (lit "new_command"))
  | Done commands =>
      let new_command :=
        strip (match field with Some v => v | None => lit "" end) in
      attempt
        (match new_command with
         | [] =>
             flash EmptyName error_category ;;
             done (add_form new_command responses)
         | _ :: _ =>
             present <- core (py_contains commands new_command) ;;
             if present then
               flash (AlreadyExists new_command) error_category ;;
               done (add_form new_command responses)
             else
               let updated_responses := response_records responses in
               commands' <- core (py_setitem commands new_command
                                    (JList updated_responses)) ;;
               save_commands commands' disk ;;
               flash (Added new_command) success_category ;;
               done (RedirectTo (lit "show_commands") [])
         end)
        (fun e =>
           log_note ERROR (ErrorAdding e) ;;
           flash (ErrorText e) error_category ;;
           done (add_form new_command responses))
  end.

Definition edit_command (command : str) : W reply :=
  attempt
    (commands <- load_now ;;
     present <- core (py_contains commands command) ;;
     if negb present then
       flash (NotFound command) error_category ;;
       done (RedirectTo (lit "show_commands") [])
     else
       responses <- core (py_getitem commands command) ;;
       done (Template (lit "edit_command.html")
               [(lit "command", JStr command); (lit "responses", responses)]))
    (fun e =>
       log_note ERROR (ErrorLoadingCommand command e) ;;
       done (Body e 500)).

Definition save_command (command : str) (new_responses : list str)
    (disk : write_answer) : W reply :=
  attempt
    (commands <- load_now ;;
     present <- core (py_contains commands command) ;;
     if negb present then
       flash (NotFound command) error_category ;;
       done (RedirectTo (lit "show_commands") [])
     else
       let updated_responses := response_records new_responses in
       commands' <- core (py_setitem commands command
                            (JList updated_responses)) ;;
       save_commands commands' disk ;;
       flash (Updated command) success_category ;;
       done (RedirectTo (lit "show_commands") []))
    (fun e =>
       log_note ERROR (ErrorSavingCommand command e) ;;
       flash (ErrorText e) error_category ;;
       done (RedirectTo (lit "edit_command") [(lit "command", command)])).

(** [field] is the form's ["command"], when it has one. *)
Definition delete_command (field : option str) (disk : write_answer)
    : W reply :=
  attempt
    (match field with
     | Some ((_ :: _) as command) =>
         commands <- load_now ;;
         present <- core (py_contains commands command) ;;
         (if present then
            commands' <- core (py_delitem commands command) ;;
            save_commands commands' disk ;;
            flash (Deleted command) success_category
          else
            flash (NotFound command) error_category) ;;
         done (RedirectTo (lit "show_commands") [])
     | _ =>
         flash NoCommand error_category ;;
         done (RedirectTo (lit "show_commands") [])
     end)
    (fun e =>
       log_note ERROR (ErrorDeleting e) ;;
       flash (ErrorText e) error_category ;;
       done (RedirectTo (lit "show_commands") [])).

Close Scope sys_scope.

(* ------------------------------------------------------------------ *)
(** Observations on these, and inputs for their examples. *)

Definition is_write (a : action) : bool :=
  match a with OpenW | Dump _ => true | _ => false end.

(** What was done to write [commands.json]. *)
Definition writes (t : list action) : list action := filter is_write t.

Definition is_request (a : action) : bool :=
  match a with
  | Get _ _ => true
  | Did ev => is_http ev
  | _ => false
  end.

(** The requests sent to the platform. *)
Definition requests_made (t : list action) : list action := filter is_request t.

(** A group of the listing that has a name and the id [id]. *)
Definition group_with_id (id : json) (group : json) : Prop :=
  exists d name, group = JDict d /\
                 dict_lookup d (lit "name") = Some name /\
                 dict_lookup d (lit "id") = Some id.

(** A group as the platform lists it: an object with a name and an id. *)
Definition is_group (group : json) : Prop := exists id, group_with_id id group.

(** A reply of the platform with status 200 whose body is the object
    [{"response": payload}]. *)
Definition ok_reply (payload : json) : response :=
  mkResponse 200 (lit "") (Ok (JDict [(lit "response", payload)])).

Definition group (name id : string) : json :=
  JDict [(lit "name", JStr (lit name)); (lit "id", JStr (lit id))].

Definition on_disk (t : Z) (commands : json) : world :=
  mkWorld (serving (JDict [])) (Present t (Some commands)).

(** The platform knows the user and lists two groups. *)
Definition ann : dict :=
  [(lit "name", JStr (lit "Ann")); (lit "id", JStr (lit "u1"))].

Definition two_groups : list json := [group "Family" "g1"; group "Work" "g2"].

(** Nothing on disk. *)
Definition no_file : world := mkWorld (serving (JDict [])) Missing.

(** A form with a padded line, a blank line and a plain line. *)
Definition three_lines : list str := [lit " hello "; lit "  "; lit "there"].

(** The lines a form leaves: its responses, trimmed, without those that are
    blank. *)
Definition kept_lines (responses : list str) : list str :=
  map strip
    (filter (fun r => match strip r with [] => false | _ :: _ => true end)
            responses).

(** The file cannot be loaded. *)
Definition unreadable (f : file_state) : Prop :=
  match f with
  | Present _ (Some _) => False
  | _ => True
  end.

(** A computation that does nothing to write [commands.json] and leaves it
    as it is. *)
Definition harmless {A} (c : W A) : Prop :=
  forall w, writes (actions (c w)) = [] /\
            commands_json (after (c w)) = commands_json w.

(** A computation that always ends with a value. *)
Definition returns {A} (c : W A) : Prop :=
  forall w, exists a, result_of (c w) = Done a.

(* ================================================================== *)
(** * Properties *)

(** ** Strings *)

Section StringFacts.

Lemma eqb_refl (a : str) : eqb a a = true.
Proof.
  induction a as [|x a IH]; simpl; [reflexivity|].
  now rewrite N.eqb_refl, IH.
Qed.

Lemma eqb_eq (a b : str) : eqb a b = true <-> a = b.
Proof.
  split.
  - revert b; induction a as [|x a IH]; intros [|y b]; simpl; try discriminate.
    + reflexivity.
    + intros H. apply andb_true_iff in H as [Hx Hab].
      apply N.eqb_eq in Hx. apply IH in Hab. now subst.
  - intros ->. apply eqb_refl.
Qed.

Lemma eqb_neq (a b : str) : eqb a b = false <-> a <> b.
Proof.
  rewrite <- eqb_eq. destruct (eqb a b); split; congruence.
Qed.

Lemma lstrip_split (s : str) :
  exists l, s = l ++ lstrip s /\ all_space l.
Proof.
  induction s as [|c s [l [Hs Hl]]]; simpl.
  - exists []. split; [reflexivity | constructor].
  - destruct (isspace c) eqn:Hc.
    + exists (c :: l). split; [simpl; now f_equal | now constructor].
    + exists []. split; [reflexivity | constructor].
Qed.

Lemma lstrip_head (s : str) (c : char) (t : str) :
  lstrip s = c :: t -> isspace c = false.
Proof.
  induction s as [|x s IH]; simpl; [discriminate|].
  destruct (isspace x) eqn:Hx; [exact IH|].
  intros H. now injection H as -> _.
Qed.

Lemma lstrip_spaces (l x : str) : all_space l -> lstrip (l ++ x) = lstrip x.
Proof.
  induction 1 as [|c l Hc _ IH]; simpl; [reflexivity|].
  now rewrite Hc.
Qed.

Lemma lstrip_fixed (c : char) (t : str) :
  isspace c = false -> lstrip (c :: t) = c :: t.
Proof. intros H. simpl. now rewrite H. Qed.

Lemma all_space_rev (l : str) : all_space l -> all_space (rev l).
Proof.
  unfold all_space. rewrite !Forall_forall.
  intros H c Hc. apply H. now apply in_rev.
Qed.

Lemma rstrip_split (s : str) :
  exists r, s = rstrip s ++ r /\ all_space r.
Proof.
  destruct (lstrip_split (rev s)) as [l [Hs Hl]].
  exists (rev l). split; [|now apply all_space_rev].
  unfold rstrip. rewrite <- rev_app_distr, <- Hs. symmetry. apply rev_involutive.
Qed.

Lemma rstrip_last (s t : str) (c : char) :
  rstrip s = t ++ [c] -> isspace c = false.
Proof.
  unfold rstrip. intros H.
  apply (f_equal (@rev char)) in H.
  rewrite rev_involutive, rev_app_distr in H. simpl in H.
  exact (lstrip_head _ _ _ H).
Qed.

(** [strip] removes a run of white space at each end and stops at the first
    character, from either side, that is not white space. *)
Lemma strip_spec (s : str) :
  exists l r,
    s = l ++ strip s ++ r /\ all_space l /\ all_space r /\ trimmed (strip s).
Proof.
  destruct (lstrip_split s) as [l [Hs Hl]].
  destruct (rstrip_split (lstrip s)) as [r [Hm Hr]].
  exists l, r. unfold strip. repeat split; try assumption.
  - now rewrite <- Hm.
  - intros c t Ht. rewrite Ht in Hm. simpl in Hm.
    exact (lstrip_head _ _ _ Hm).
  - intros c t Ht. exact (rstrip_last _ _ _ Ht).
Qed.

(** ... and it is the only middle part of that kind. *)
Lemma strip_unique (s l m r : str) :
  s = l ++ m ++ r -> all_space l -> all_space r -> trimmed m -> strip s = m.
Proof.
  intros -> Hl Hr [Hfirst Hlast]. unfold strip.
  rewrite (lstrip_spaces _ _ Hl).
  destruct m as [|c m'].
  - simpl. rewrite <- (app_nil_r r), (lstrip_spaces _ _ Hr). reflexivity.
  - simpl app. rewrite (lstrip_fixed _ _ (Hfirst c m' eq_refl)).
    unfold rstrip. change (c :: m' ++ r) with ((c :: m') ++ r).
    rewrite rev_app_distr, (lstrip_spaces _ _ (all_space_rev _ Hr)).
    destruct (exists_last (l := c :: m')) as [t [z Htz]]; [discriminate|].
    rewrite Htz, rev_app_distr.
    change (rev [z] ++ rev t) with (z :: rev t).
    rewrite (lstrip_fixed _ _ (Hlast z t Htz)).
    change (z :: rev t) with (rev [z] ++ rev t).
    now rewrite <- rev_app_distr, rev_involutive.
Qed.

Lemma firstn_prefix (p s : str) :
  firstn (List.length p) s = p <-> starts_with s p.
Proof.
  split.
  - intros H. exists (skipn (List.length p) s).
    rewrite <- H at 1. symmetry. apply firstn_skipn.
  - intros [rest ->]. rewrite firstn_app, Nat.sub_diag, firstn_all. simpl.
    apply app_nil_r.
Qed.

End StringFacts.

(** ** Dicts *)

Section DictFacts.

(** A lookup finds a binding of that very key. *)
Lemma dict_lookup_In (d : dict) (k : str) (v : json) :
  dict_lookup d k = Some v -> In (k, v) d.
Proof.
  induction d as [|[k' v'] d IH]; simpl; [discriminate|].
  destruct (eqb k' k) eqn:E.
  - apply eqb_eq in E. intros H. injection H as ->. subst. now left.
  - intros H. right. now apply IH.
Qed.

(** A key bound nowhere is not found. *)
Lemma dict_lookup_absent (d : dict) (k : str) :
  (forall v, ~ In (k, v) d) -> dict_lookup d k = None.
Proof.
  intros H. destruct (dict_lookup d k) as [v|] eqn:E; [|reflexivity].
  exfalso. exact (H v (dict_lookup_In _ _ _ E)).
Qed.

Lemma dict_lookup_set (d : dict) (k : str) (v : json) :
  dict_lookup (dict_set d k v) k = Some v.
Proof.
  induction d as [|[k' v'] d IH]; simpl.
  - now rewrite eqb_refl.
  - destruct (eqb k' k) eqn:E; simpl; now rewrite E.
Qed.

(** In a dict, whose keys are all different, a binding is the one found. *)
Lemma dict_lookup_unique (d : dict) (k : str) (v : json) :
  NoDup (map fst d) -> In (k, v) d -> dict_lookup d k = Some v.
Proof.
  induction d as [|[k' v'] d IH]; simpl; [contradiction|].
  intros Hnd [E|Hin].
  - injection E as -> ->. now rewrite eqb_refl.
  - inversion Hnd as [|x xs Hx Hxs]; subst.
    destruct (eqb k' k) eqn:E.
    + apply eqb_eq in E. subst k'. exfalso. apply Hx.
      change k with (fst (k, v)). now apply in_map.
    + now apply IH.
Qed.

End DictFacts.

(** ** process_message *)

Arguments lit : simpl never.
Arguments strip : simpl never.

(** Runs the straight-line part of a computation. *)
Ltac run :=
  unfold bind, try_except, py_get, py_strip, py_join, log, emit, ret, raise,
    lift, read_COMMANDS;
  simpl.

Section ResponseLines.

Lemma all_strs_map (texts : list str) : all_strs (map JStr texts) = Some texts.
Proof.
  induction texts as [|t texts IH]; simpl; [reflexivity|].
  now rewrite IH.
Qed.

Lemma response_lines_records (records : list json) (texts : list str) :
  Forall2 line_record records texts ->
  response_lines records = map JStr texts.
Proof.
  induction 1 as [|item t records texts [d [-> Hd]] _ IH]; simpl.
  - reflexivity.
  - unfold dict_get. now rewrite Hd, IH.
Qed.

Lemma response_lines_lacking (items : list json) :
  Forall lacks_line items ->
  response_lines items = map JStr (repeat (lit "") (List.length items)).
Proof.
  induction 1 as [|item items [d [-> Hd]] _ IH]; simpl.
  - reflexivity.
  - unfold dict_get. now rewrite Hd, IH.
Qed.

(** The comprehension sees the dicts only. *)
Lemma response_lines_filter (items : list json) :
  response_lines (filter is_dict items) = response_lines items.
Proof.
  induction items as [|item items IH]; simpl; [reflexivity|].
  destruct item; simpl; try exact IH. now rewrite IH.
Qed.

Lemma response_lines_no_dict (items : list json) :
  Forall (fun item => is_dict item = false) items ->
  response_lines items = [].
Proof.
  induction 1 as [|item items Hi _ IH]; simpl; [reflexivity|].
  destruct item; try exact IH. discriminate.
Qed.

End ResponseLines.

Section ProcessMessage.

(** A message that is a dict, does not come from a bot and whose text is the
    string [raw], while the table in force is the dict [table]. *)
Variable message : dict.
Variable raw : str.
Variable table : dict.
Variable last : option Z.

Hypothesis not_bot :
  eq_str (dict_get message (lit "sender_type") JNull) (lit "bot") = false.
Hypothesis has_text :
  dict_get message (lit "text") (JStr (lit "")) = JStr raw.

Local Abbreviation s := (mkStore (JDict table) last).
Local Abbreviation text := (strip raw).
Local Abbreviation heard :=
  [Log INFO ProcessMessageCalled; Log INFO (ProcessingMessage (strip raw))].

(** Brings [process_message] to the point where the stored value is looked
    at. *)
Ltac to_lookup H :=
  unfold process_message; run; rewrite not_bot, has_text; run;
  unfold dict_get; rewrite H; simpl.

Lemma answer_absent :
  dict_lookup table text = None ->
  process_message (JDict message) s = (heard, s, Ok None).
Proof. intros H. to_lookup H. reflexivity. Qed.

Lemma answer_null :
  dict_lookup table text = Some JNull ->
  process_message (JDict message) s = (heard, s, Ok None).
Proof. intros H. to_lookup H. reflexivity. Qed.

Lemma answer_string (reply : str) :
  dict_lookup table text = Some (JStr reply) ->
  process_message (JDict message) s = (heard, s, Ok (Some reply)).
Proof. intros H. to_lookup H. reflexivity. Qed.

Lemma answer_unexpected (v : json) :
  dict_lookup table text = Some v ->
  unexpected_format v = true ->
  process_message (JDict message) s =
    (heard ++ [Log WARNING (InvalidResponseFormat text v)], s, Ok None).
Proof.
  intros H Hv. to_lookup H.
  destruct v; try discriminate Hv; reflexivity.
Qed.

Lemma answer_no_line (items : list json) :
  dict_lookup table text = Some (JList items) ->
  response_lines items = [] ->
  process_message (JDict message) s = (heard, s, Ok None).
Proof. intros H Hl. to_lookup H. rewrite Hl. reflexivity. Qed.

Lemma answer_lines (items : list json) (parts : list str) :
  dict_lookup table text = Some (JList items) ->
  parts <> [] ->
  response_lines items = map JStr parts ->
  process_message (JDict message) s =
    (heard, s, Ok (Some (join newline parts))).
Proof.
  intros H Hne Hl. to_lookup H. rewrite Hl.
  destruct parts as [|p parts]; [contradiction|].
  change (JStr p :: map JStr parts) with (map JStr (p :: parts)).
  unfold py_join. rewrite all_strs_map. reflexivity.
Qed.

Lemma answer_bad_line (items : list json) :
  dict_lookup table text = Some (JList items) ->
  all_strs (response_lines items) = None ->
  process_message (JDict message) s = (heard, s, Raise TypeError).
Proof.
  intros H Hl. to_lookup H.
  destruct (response_lines items) as [|x lines] eqn:E; [discriminate Hl|].
  unfold py_join. rewrite Hl. reflexivity.
Qed.

Lemma all_strs_some (l : list json) (parts : list str) :
  all_strs l = Some parts -> l = map JStr parts.
Proof.
  revert parts. induction l as [|x l IH]; simpl; intros parts H.
  - now injection H as <-.
  - destruct x; try discriminate H.
    destruct (all_strs l) as [ps|]; [|discriminate H].
    injection H as <-. simpl. now rewrite (IH ps eq_refl).
Qed.

(** C2. For a message that is not from a bot, [process_message] takes the
    text without the white space around it, and that trimmed text is the key
    it looks up, as it stands: the outcome depends on the table only through
    the binding of that very key; when no binding of the table has that key
    the result is [None]; and when the table, whose keys are all different,
    has a binding of that key, the value bound is what is answered: a string
    as it is, a list of records with some line as their display texts joined
    by newlines. *)
Theorem process_message_exact_lookup :
  (exists l r, raw = l ++ text ++ r /\ all_space l /\ all_space r /\
               trimmed text) /\
  (forall table',
     dict_lookup table' text = dict_lookup table text ->
     outcome (process_message (JDict message) (mkStore (JDict table') last)) =
     outcome (process_message (JDict message) s)) /\
  ((forall v, ~ In (text, v) table) ->
   process_message (JDict message) s = (heard, s, Ok None)) /\
  (forall reply,
     NoDup (map fst table) -> In (text, JStr reply) table ->
     process_message (JDict message) s = (heard, s, Ok (Some reply))) /\
  (forall records texts,
     NoDup (map fst table) -> In (text, JList records) table ->
     Forall2 line_record records texts -> texts <> [] ->
     process_message (JDict message) s =
       (heard, s, Ok (Some (join newline texts)))).
Proof.
  split; [apply strip_spec|]. split; [|split; [|split]].
  - intros table' H. unfold process_message. run.
    rewrite not_bot, has_text. run. unfold dict_get. rewrite H.
    destruct (dict_lookup table text) as [v|]; [|reflexivity].
    destruct v; try reflexivity.
    destruct (response_lines l); [reflexivity|].
    destruct (all_strs (j :: l0)); reflexivity.
  - intros H. apply answer_absent. now apply dict_lookup_absent.
  - intros reply Hnd Hin. apply answer_string.
    now apply dict_lookup_unique.
  - intros records texts Hnd Hin Hrec Hne.
    apply answer_lines with (items := records).
    + now apply dict_lookup_unique.
    + exact Hne.
    + now apply response_lines_records.
Qed.

(** C3. When the trimmed text is bound to a list of response-line records,
    the result is their display texts joined by a newline, and it is [None],
    not the empty string, when there is no line. *)
Theorem process_message_joins_lines (records : list json) (texts : list str) :
  dict_lookup table text = Some (JList records) ->
  Forall2 line_record records texts ->
  process_message (JDict message) s =
    (heard, s,
     Ok (match texts with
         | [] => None
         | _ :: _ => Some (join newline texts)
         end)).
Proof.
  intros H Hrec. pose proof (response_lines_records _ _ Hrec) as Hl.
  destruct texts as [|t texts].
  - now apply answer_no_line with (items := records).
  - apply answer_lines with (items := records); [assumption|discriminate|assumption].
Qed.

(** C4, as the code has it. A stored boolean, number or object gets a format
    warning and the result [None]; a stored null gets [None] and no warning;
    and no exception leaves [process_message] whatever the stored value is,
    as long as the lines of a stored list are strings. *)
Theorem process_message_unexpected_format (v : json) :
  dict_lookup table text = Some v ->
  (unexpected_format v = true ->
   process_message (JDict message) s =
     (heard ++ [Log WARNING (InvalidResponseFormat text v)], s, Ok None)) /\
  (v = JNull -> process_message (JDict message) s = (heard, s, Ok None)) /\
  ((forall items, v = JList items -> all_strs (response_lines items) <> None) ->
   exists r, outcome (process_message (JDict message) s) = Ok r).
Proof.
  intros H. split; [|split].
  - now apply answer_unexpected.
  - intros ->. now apply answer_null.
  - intros Hlines.
    destruct v as [|b|n|bits|reply|items|d].
    + rewrite (answer_null H). now eexists.
    + rewrite (answer_unexpected _ H eq_refl). now eexists.
    + rewrite (answer_unexpected _ H eq_refl). now eexists.
    + rewrite (answer_unexpected _ H eq_refl). now eexists.
    + rewrite (answer_string _ H). now eexists.
    + destruct (all_strs (response_lines items)) as [parts|] eqn:E.
      * apply all_strs_some in E. destruct parts as [|p parts].
        -- rewrite (answer_no_line _ H E). now eexists.
        -- rewrite (answer_lines _ (p :: parts) H ltac:(discriminate) E).
           now eexists.
      * exfalso. exact (Hlines items eq_refl E).
    + rewrite (answer_unexpected _ H eq_refl). now eexists.
Qed.

(** C10. Records without ["responseLine1"] give one empty line each, so a
    single one gives the empty string and not [None]; the elements of the
    list that are not dicts do not count, the outcome being that of the list
    without them; and a list without any dict gives [None]. *)
Theorem process_message_records_without_field (items : list json) :
  dict_lookup table text = Some (JList items) ->
  (items <> [] -> Forall lacks_line items ->
   process_message (JDict message) s =
     (heard, s,
      Ok (Some (join newline (repeat (lit "") (List.length items)))))) /\
  ((exists item, items = [item] /\ lacks_line item) ->
   process_message (JDict message) s = (heard, s, Ok (Some (lit "")))) /\
  (forall table',
     dict_lookup table' text = Some (JList (filter is_dict items)) ->
     trace (process_message (JDict message) (mkStore (JDict table') last)) =
     trace (process_message (JDict message) s) /\
     outcome (process_message (JDict message) (mkStore (JDict table') last)) =
     outcome (process_message (JDict message) s)) /\
  (Forall (fun item => is_dict item = false) items ->
   process_message (JDict message) s = (heard, s, Ok None)).
Proof.
  intros H. split; [|split; [|split]].
  - intros Hne Hall.
    apply answer_lines with (items := items); [assumption| |].
    + destruct items; [contradiction|discriminate].
    + now apply response_lines_lacking.
  - intros [item [-> Hitem]].
    apply (answer_lines [item] [lit ""]); [assumption|discriminate|].
    apply (response_lines_lacking [item]). now constructor.
  - intros table' H'. unfold process_message. run.
    rewrite not_bot, has_text. run. unfold dict_get. rewrite H, H'.
    rewrite response_lines_filter. simpl.
    destruct (response_lines items) as [|x lines]; [now split|].
    destruct (all_strs (x :: lines)); now split.
  - intros Hall. apply answer_no_line with (items := items); [assumption|].
    now apply response_lines_no_dict.
Qed.

End ProcessMessage.

Section Guards.

Variable message : dict.
Variable st : store.

(** C1. A message whose ["sender_type"] is ["bot"] gets [None], whatever its
    text and whatever the table: [process_message] stops before it reads
    either. *)
Theorem process_message_ignores_bot :
  dict_lookup message (lit "sender_type") = Some (JStr (lit "bot")) ->
  process_message (JDict message) st =
    ([Log INFO ProcessMessageCalled], st, Ok None).
Proof.
  intros H. unfold process_message. run.
  unfold dict_get. rewrite H. reflexivity.
Qed.

(** C9. A message that is not from a bot and whose ["text"] is present and
    null makes [process_message] raise: the default of [get] is for a key
    that is missing, so [strip] is called on [None]. *)
Theorem process_message_null_text :
  eq_str (dict_get message (lit "sender_type") JNull) (lit "bot") = false ->
  dict_lookup message (lit "text") = Some JNull ->
  process_message (JDict message) st =
    ([Log INFO ProcessMessageCalled], st, Raise AttributeError).
Proof.
  intros Hs Ht. unfold process_message. run. rewrite Hs.
  unfold dict_get at 1. rewrite Ht. reflexivity.
Qed.

(** With the key missing the default is stripped and looked up instead. *)
Lemma process_message_missing_text :
  eq_str (dict_get message (lit "sender_type") JNull) (lit "bot") = false ->
  dict_lookup message (lit "text") = None ->
  COMMANDS st = JDict [] ->
  outcome (process_message (JDict message) st) = Ok None.
Proof.
  intros Hs Ht Hc. unfold process_message. run. rewrite Hs.
  unfold dict_get at 1. rewrite Ht. run. rewrite Hc. reflexivity.
Qed.

End Guards.

(** ** The watcher *)

Section Watcher.

Lemma bind_unit_ok {A} (m : M unit) (k : M A) (st : store) (t : list event) :
  m st = (t, st, Ok tt) ->
  bind m (fun _ => k) st =
    (t ++ trace (k st), final (k st), outcome (k st)).
Proof.
  intros H. unfold bind. rewrite H.
  destruct (k st) as [[t' s'] r]. reflexivity.
Qed.

(** One turn at which loading fails: nothing is assigned, the loop goes on,
    the time of the file is read once and the file is opened when it is due. *)
Lemma failed_iteration (i : tick) (st : store) :
  load_fails i = true ->
  exists t,
    monitor_iteration i st = (t, st, Ok tt) /\
    stat_attempts t = 1%nat /\
    load_attempts t = (if due (last_mtime st) i then 1%nat else 0%nat).
Proof.
  destruct i as [f g]. unfold load_fails, due. simpl.
  unfold monitor_iteration, getmtime, load_commands, read_json_file,
    update_commands. simpl at_stat. simpl at_open.
  destruct f as [|t c]; intros H.
  - run. eexists. repeat split.
  - run. unfold read_last_mtime. simpl.
    destruct (reload_due (last_mtime st) t).
    + destruct g as [|t' [v|]]; [|discriminate H|];
        simpl; eexists; repeat split.
    + simpl. eexists. repeat split.
Qed.

Lemma loop_cons (i : tick) (rest : list tick) (st : store) (t : list event) :
  monitor_iteration i st = (t, st, Ok tt) ->
  monitor_loop (i :: rest) st =
    (t ++ trace (monitor_loop rest st),
     final (monitor_loop rest st),
     outcome (monitor_loop rest st)).
Proof. intros H. simpl. now apply bind_unit_ok. Qed.

Lemma load_attempts_app (t u : list event) :
  load_attempts (t ++ u) = (load_attempts t + load_attempts u)%nat.
Proof. unfold load_attempts. now rewrite filter_app, length_app. Qed.

Lemma stat_attempts_app (t u : list event) :
  stat_attempts (t ++ u) = (stat_attempts t + stat_attempts u)%nat.
Proof. unfold stat_attempts. now rewrite filter_app, length_app. Qed.

Lemma failed_loop (ticks : list tick) (st : store) :
  Forall (fun i => load_fails i = true) ticks ->
  final (monitor_loop ticks st) = st /\
  outcome (monitor_loop ticks st) = Ok tt /\
  stat_attempts (trace (monitor_loop ticks st)) = List.length ticks /\
  load_attempts (trace (monitor_loop ticks st)) =
    List.length (filter (due (last_mtime st)) ticks).
Proof.
  induction 1 as [|i rest Hi _ [IHs [IHo [IHn IHl]]]].
  - repeat split.
  - destruct (failed_iteration i st Hi) as [t [Ht [Hn Hl]]].
    rewrite (loop_cons _ _ _ _ Ht). unfold final, outcome, trace. simpl.
    fold (final (monitor_loop rest st)) (outcome (monitor_loop rest st))
      (trace (monitor_loop rest st)).
    rewrite stat_attempts_app, load_attempts_app, Hn, Hl, IHn, IHl.
    repeat split; try assumption.
    destruct (due (last_mtime st) i); reflexivity.
Qed.

(** A turn that finds a newer file that parses installs it. *)
Lemma good_iteration (t : Z) (commands : json) (st : store) :
  reload_due (last_mtime st) t = true ->
  final (monitor_iteration (good_file t commands) st) =
    mkStore commands (Some t).
Proof.
  intros H. unfold monitor_iteration, good_file, getmtime, load_commands,
    read_json_file, update_commands, read_last_mtime, write_COMMANDS,
    write_last_mtime. run.
  rewrite H. reflexivity.
Qed.

Lemma loop_app (ticks more : list tick) (st : store) :
  outcome (monitor_loop ticks st) = Ok tt ->
  final (monitor_loop (ticks ++ more) st) =
    final (monitor_loop more (final (monitor_loop ticks st))).
Proof.
  revert st. induction ticks as [|i rest IH]; intros st; simpl.
  - reflexivity.
  - unfold bind. destruct (monitor_iteration i st) as [[t s'] [[]|e]].
    + specialize (IH s').
      destruct (monitor_loop rest s') as [[t1 s1] r1] eqn:E1.
      destruct (monitor_loop (rest ++ more) s') as [[t2 s2] r2] eqn:E2.
      unfold outcome, final in *. simpl in *. exact IH.
    + discriminate.
Qed.

(** C5. Over any run of turns at each of which loading fails, the table and
    the time last applied stay as they were, so a message gets the answer it
    got before; the loop goes on, reads the time of the file at every turn
    and opens the file again at every turn that finds it newer than the time
    last applied, which is every turn while the broken file stays in place;
    and the first turn to find a newer file that parses installs it. *)
Theorem failed_reload_keeps_table (ticks : list tick) (st : store) :
  Forall (fun i => load_fails i = true) ticks ->
  final (monitor_loop ticks st) = st /\
  outcome (monitor_loop ticks st) = Ok tt /\
  (forall message,
     process_message message (final (monitor_loop ticks st)) =
     process_message message st) /\
  stat_attempts (trace (monitor_loop ticks st)) = List.length ticks /\
  (Forall (fun i => due (last_mtime st) i = true) ticks ->
   load_attempts (trace (monitor_loop ticks st)) = List.length ticks) /\
  (forall t commands,
     reload_due (last_mtime st) t = true ->
     final (monitor_loop (ticks ++ [good_file t commands]) st) =
       mkStore commands (Some t)).
Proof.
  intros H. destruct (failed_loop ticks st H) as [Hs [Ho [Hn Hl]]].
  repeat split; try assumption.
  - intros message. now rewrite Hs.
  - intros Hdue. rewrite Hl. f_equal.
    clear -Hdue. induction Hdue as [|i rest Hi _ IH]; simpl; [reflexivity|].
    now rewrite Hi, IH.
  - intros t commands Hdue. rewrite (loop_app _ _ _ Ho), Hs. simpl.
    unfold bind.
    pose proof (good_iteration t commands st Hdue) as Hg.
    destruct (monitor_iteration (good_file t commands) st) as [[t' s'] [[]|e]];
      exact Hg.
Qed.

End Watcher.

(** ** The dispatcher *)

Section Dispatcher.

Variables token bot_id text : str.
Variable answer : result response.
Variable st : store.

Lemma image_test :
  eqb (firstn 10 text) (lit "https://i.") = true <->
  starts_with text (lit "https://i.").
Proof.
  rewrite eqb_eq. exact (firstn_prefix (lit "https://i.") text).
Qed.

(** C6. [post_message] sends one request, a POST to [/bots/post].  Its body
    is the image shape, with an empty text and the text given as the url of
    its only attachment, when the text begins with ["https://i."], and the
    plain shape with that text and no attachment otherwise. *)
Theorem post_message_payload :
  (starts_with text (lit "https://i.") ->
   requests_sent (trace (post_message token bot_id text answer st)) =
     [HttpPost (lit "https://api.groupme.com/v3/bots/post") []
        (JDict [(lit "bot_id", JStr bot_id);
                (lit "text", JStr (lit ""));
                (lit "attachments",
                 JList [JDict [(lit "type", JStr (lit "image"));
                               (lit "url", JStr text)]])])]) /\
  (~ starts_with text (lit "https://i.") ->
   requests_sent (trace (post_message token bot_id text answer st)) =
     [HttpPost (lit "https://api.groupme.com/v3/bots/post") []
        (JDict [(lit "bot_id", JStr bot_id);
                (lit "text", JStr text)])]).
Proof.
  split; intros H.
  - apply image_test in H.
    unfold post_message, requests_post. rewrite H. run.
    destruct answer as [resp|e]; simpl; [|reflexivity].
    destruct (Z.eqb (status_code resp) 201 || Z.eqb (status_code resp) 202);
      reflexivity.
  - assert (E : eqb (firstn 10 text) (lit "https://i.") = false).
    { destruct (eqb (firstn 10 text) (lit "https://i.")) eqn:E; [|reflexivity].
      exfalso. apply H. now apply image_test. }
    unfold post_message, requests_post. rewrite E. run.
    destruct answer as [resp|e]; simpl; [|reflexivity].
    destruct (Z.eqb (status_code resp) 201 || Z.eqb (status_code resp) 202);
      reflexivity.
Qed.

(** The store is not touched by a send. *)
Lemma post_message_store :
  final (post_message token bot_id text answer st) = st.
Proof.
  unfold post_message, requests_post. run.
  destruct answer as [resp|e]; simpl; [|reflexivity].
  destruct (Z.eqb (status_code resp) 201 || Z.eqb (status_code resp) 202);
    reflexivity.
Qed.

End Dispatcher.

(** ** The callback endpoint *)

Section Callback.

Variables TOKEN BOT_ID : str.

(** C7. Whatever is posted to the endpoint, [handle_callback] returns the
    empty body with status 200: also when the body is not JSON, when
    [process_message] raises and when the send fails, no exception leaves
    it. *)
Theorem handle_callback_acknowledges
    (request_json : result json) (answer : result response) (st : store) :
  outcome (handle_callback TOKEN BOT_ID request_json answer st) =
    Ok (lit "", 200%Z).
Proof.
  unfold handle_callback, bind, try_except, lift, log, emit, ret, outcome.
  destruct request_json as [data|e]; simpl; [|reflexivity].
  destruct (process_message data st) as [[t s'] [[[|c r]|]|e]]; simpl;
    try reflexivity.
  destruct (post_message TOKEN BOT_ID (c :: r) answer s') as [[t' s''] [b|e]];
    reflexivity.
Qed.

(** A message from a bot is acknowledged and nothing is sent for it. *)
Lemma handle_callback_bot_silent
    (message : dict) (answer : result response) (st : store) :
  dict_lookup message (lit "sender_type") = Some (JStr (lit "bot")) ->
  requests_sent
    (trace (handle_callback TOKEN BOT_ID (Ok (JDict message)) answer st)) = [].
Proof.
  intros H. unfold handle_callback, process_message. run.
  unfold dict_get. rewrite H. reflexivity.
Qed.

End Callback.


(** ** The check of the callback URL *)

Section CallbackCheck.

Lemma quiet_ret {A} (a : A) : quiet (ret a).
Proof. intros st. now split. Qed.

Lemma quiet_raise {A} (e : exn) : quiet (@raise A e).
Proof. intros st. now split. Qed.

Lemma quiet_lift {A} (r : result A) : quiet (lift r).
Proof. intros st. now split. Qed.

Lemma quiet_log (lv : level) (m : log_msg) : quiet (log lv m).
Proof. intros st. now split. Qed.

Lemma quiet_bind {A B} (m : M A) (f : A -> M B) :
  quiet m -> (forall a, quiet (f a)) -> quiet (bind m f).
Proof.
  intros Hm Hf st. unfold bind. destruct (Hm st) as [Ht Hs].
  destruct (m st) as [[t s'] [a|e]]; unfold trace, final in *; simpl in *.
  - subst s'. destruct (Hf a st) as [Ht' Hs'].
    destruct (f a st) as [[t' s''] r]. unfold trace, final in *. simpl in *.
    unfold requests_sent in *. rewrite filter_app, Ht, Ht'. now split.
  - now split.
Qed.

Lemma quiet_py_get (obj : json) (k : str) (d : json) : quiet (py_get obj k d).
Proof. destruct obj; simpl; auto using quiet_ret, quiet_raise. Qed.

Lemma quiet_py_getitem (obj : json) (k : str) : quiet (py_getitem obj k).
Proof.
  destruct obj; simpl; auto using quiet_raise.
  destruct (dict_lookup d k); auto using quiet_ret, quiet_raise.
Qed.

Lemma quiet_py_setitem (obj : json) (k : str) (v : json) :
  quiet (py_setitem obj k v).
Proof. destruct obj; simpl; auto using quiet_ret, quiet_raise. Qed.

Lemma quiet_py_iter (obj : json) : quiet (py_iter obj).
Proof. destruct obj; simpl; auto using quiet_ret, quiet_raise. Qed.

Create HintDb quiet.
#[local] Hint Resolve quiet_ret quiet_raise quiet_lift quiet_log quiet_py_get
  quiet_py_getitem quiet_py_setitem quiet_py_iter : quiet.

Ltac quiet_steps :=
  repeat first
    [ apply quiet_bind; [|intros ?]
    | match goal with |- quiet (if ?b then _ else _) => destruct b end
    | match goal with |- quiet (match ?o with Some _ => _ | None => _ end) =>
        destruct o end
    | solve [auto with quiet] ].

Lemma quiet_scan_bots (bot_id callback_url : str) (bots : list json) :
  quiet (scan_bots bot_id callback_url bots).
Proof.
  induction bots as [|bot rest IH]; simpl.
  - apply quiet_ret.
  - apply quiet_bind; [apply quiet_py_getitem|]. intros id.
    destruct (eq_str id bot_id); [|exact IH].
    quiet_steps.
Qed.

(** Whatever the platform answers, the one request of
    [check_bot_callback] is the GET of the list of bots. *)
Lemma check_bot_callback_one_get
    (token bot_id callback_url : str) (answer : result response) (st : store) :
  requests_sent (trace (check_bot_callback token bot_id callback_url answer st)) =
    [HttpGet (lit "https://api.groupme.com/v3/bots") [(lit "token", token)]].
Proof.
  unfold check_bot_callback, requests_get.
  set (rest := fun resp : response => _).
  assert (Hrest : forall resp, quiet (rest resp)).
  { intros resp. unfold rest.
    pose proof (quiet_scan_bots bot_id callback_url) as Hscan.
    quiet_steps; apply Hscan. }
  unfold bind at 1. unfold bind at 1. simpl.
  destruct answer as [resp|e]; simpl; [|reflexivity].
  destruct (Hrest resp st) as [Ht _].
  destruct (rest resp st) as [[t s'] r]. unfold trace in *. simpl in *.
  now rewrite Ht.
Qed.

Lemma scan_bots_skips (bot_id callback_url : str) (before rest : list json)
    (st : store) :
  Forall (other_bot bot_id) before ->
  scan_bots bot_id callback_url (before ++ rest) st =
  scan_bots bot_id callback_url rest st.
Proof.
  induction 1 as [|entry before [d [id [-> [Hd Hid]]]] _ IH]; simpl.
  - reflexivity.
  - unfold bind at 1. rewrite Hd. unfold ret at 1. rewrite Hid.
    rewrite IH.
    destruct (scan_bots bot_id callback_url rest st) as [[t s'] r].
    reflexivity.
Qed.

(** C8. When the bot is among those listed and the callback URL registered
    for it is not the one expected, [check_bot_callback] sends the GET of the
    list and nothing else: it logs the warning, builds the update with the
    expected URL, logs that and returns, with no request that would change
    the registration. *)
Theorem check_bot_callback_mismatch_logged_only
    (token bot_id callback_url : str) (resp : response)
    (body bot : dict) (before after : list json) (st : store) :
  status_code resp = 200%Z ->
  json_body resp = Ok (JDict body) ->
  dict_lookup body (lit "response") =
    Some (JList (before ++ JDict bot :: after)) ->
  Forall (other_bot bot_id) before ->
  dict_lookup bot (lit "bot_id") = Some (JStr bot_id) ->
  eq_str (dict_get bot (lit "callback_url") JNull) callback_url = false ->
  check_bot_callback token bot_id callback_url (Ok resp) st =
    ([HttpGet (lit "https://api.groupme.com/v3/bots") [(lit "token", token)];
      Log WARNING
        (IncorrectCallback bot_id
           (dict_get bot (lit "callback_url") (JStr (lit "None")))
           callback_url);
      Log INFO
        (LogData
           (JDict [(lit "bot",
                    JDict (dict_set bot (lit "callback_url")
                             (JStr callback_url)))]))],
     st, Ok tt) /\
  requests_sent
    (trace (check_bot_callback token bot_id callback_url (Ok resp) st)) =
    [HttpGet (lit "https://api.groupme.com/v3/bots") [(lit "token", token)]].
Proof.
  intros Hstatus Hbody Hlist Hbefore Hid Hurl.
  split; [|apply check_bot_callback_one_get].
  unfold check_bot_callback, requests_get.
  unfold bind at 1. unfold bind at 1. simpl.
  unfold bind at 1. rewrite Hstatus. simpl.
  unfold bind at 1. rewrite Hbody. simpl.
  unfold bind at 1. rewrite Hlist. simpl.
  unfold bind at 1. simpl.
  unfold bind at 1. rewrite (scan_bots_skips _ _ _ _ _ Hbefore). simpl.
  unfold bind at 1. rewrite Hid. simpl. rewrite eqb_refl.
  run. rewrite Hurl. reflexivity.
Qed.

End CallbackCheck.

(* ================================================================== *)
(** * The scenarios of the specification, and instances *)

Section Scenarios.

(** Scenario A. *)
Example scenario_ping :
  outcome (process_message (human " !ping ") (serving table_AB)) =
    Ok (Some (lit "pong")).
Proof. reflexivity. Qed.

(** Scenario B. *)
Example scenario_info :
  outcome (process_message (human "!info") (serving table_AB)) =
    Ok (Some (lit "line1" ++ newline ++ lit "line2")).
Proof. reflexivity. Qed.

(** Scenario C: nothing is answered, so nothing is sent. *)
Example scenario_bot :
  requests_sent
    (trace (handle_callback (lit "tok") (lit "b1") (Ok (from_bot "!ping"))
              (Ok (mkResponse 202 (lit "") (Raise JSONDecodeError)))
              (serving table_AB))) = [].
Proof. reflexivity. Qed.

(** Scenario E. *)
Example scenario_broken_file :
  outcome (process_message (human "!ping")
             (final (monitor_loop [broken] (mkStore table_AB (Some 3%Z))))) =
    Ok (Some (lit "pong")).
Proof. reflexivity. Qed.

(** The legacy shape: a string is answered as it is. *)
Example legacy_string :
  outcome (process_message (human "!legacy") (serving table_odd)) =
    Ok (Some (lit "plain")).
Proof. reflexivity. Qed.

(** A line that is not a string makes [join] raise, and the endpoint still
    acknowledges. *)
Example number_line_raises :
  outcome (process_message (human "!num") (serving table_odd)) =
    Raise TypeError /\
  outcome (handle_callback (lit "tok") (lit "b1") (Ok (human "!num"))
             (Raise ConnectionError) (serving table_odd)) =
    Ok (lit "", 200%Z).
Proof. split; reflexivity. Qed.

End Scenarios.

Section Instances.

Lemma process_message_ignores_bot_witness :
  dict_lookup (as_dict (from_bot "!ping")) (lit "sender_type") =
    Some (JStr (lit "bot")) /\
  process_message (from_bot "!ping") (serving table_AB) =
    ([Log INFO ProcessMessageCalled], serving table_AB, Ok None).
Proof.
  split; [reflexivity|].
  apply (process_message_ignores_bot (as_dict (from_bot "!ping"))).
  reflexivity.
Defined.

(** No case folding: ["!PING"] is not ["!ping"]; and the padded ["!ping"]
    is answered with what the table binds to it. *)
Lemma process_message_exact_lookup_witness :
  eq_str (dict_get (as_dict (human " !PING ")) (lit "sender_type") JNull)
    (lit "bot") = false /\
  dict_get (as_dict (human " !PING ")) (lit "text") (JStr (lit "")) =
    JStr (lit " !PING ") /\
  outcome (process_message (human " !PING ") (serving table_AB)) = Ok None /\
  NoDup (map fst (as_dict table_AB)) /\
  In (strip (lit " !ping "), JList [record "pong"]) (as_dict table_AB) /\
  Forall2 line_record [record "pong"] [lit "pong"] /\
  outcome (process_message (human " !ping ") (serving table_AB)) =
    Ok (Some (lit "pong")).
Proof.
  split; [reflexivity|]. split; [reflexivity|].
  pose proof (process_message_exact_lookup (as_dict (human " !PING "))
                (lit " !PING ") (as_dict table_AB) None eq_refl eq_refl)
    as [_ [_ [H _]]].
  pose proof (process_message_exact_lookup (as_dict (human " !ping "))
                (lit " !ping ") (as_dict table_AB) None eq_refl eq_refl)
    as [_ [_ [_ [_ G]]]].
  assert (U : NoDup (map fst (as_dict table_AB))).
  { repeat constructor; simpl; intros K.
    - destruct K as [K|[]]. vm_compute in K. discriminate K.
    - exact K. }
  assert (B : In (strip (lit " !ping "), JList [record "pong"])
                (as_dict table_AB)) by (left; reflexivity).
  assert (R : Forall2 line_record [record "pong"] [lit "pong"]).
  { repeat constructor. eexists. split; reflexivity. }
  split.
  - change (human " !PING ") with (JDict (as_dict (human " !PING "))).
    change (serving table_AB) with (mkStore (JDict (as_dict table_AB)) None).
    rewrite H; [reflexivity|].
    intros v [E|[E|[]]]; vm_compute in E; congruence.
  - split; [exact U|]. split; [exact B|]. split; [exact R|].
    change (human " !ping ") with (JDict (as_dict (human " !ping "))).
    change (serving table_AB) with (mkStore (JDict (as_dict table_AB)) None).
    rewrite (G [record "pong"] [lit "pong"] U B R); [reflexivity|discriminate].
Defined.

Lemma process_message_joins_lines_witness :
  dict_lookup (as_dict table_AB) (strip (lit "!info")) =
    Some (JList [record "line1"; record "line2"]) /\
  Forall2 line_record [record "line1"; record "line2"]
    [lit "line1"; lit "line2"] /\
  process_message (human "!info") (serving table_AB) =
    ([Log INFO ProcessMessageCalled;
      Log INFO (ProcessingMessage (lit "!info"))],
     serving table_AB,
     Ok (Some (lit "line1" ++ newline ++ lit "line2"))).
Proof.
  assert (R : Forall2 line_record [record "line1"; record "line2"]
                [lit "line1"; lit "line2"]).
  { repeat constructor; eexists; split; reflexivity. }
  split; [reflexivity|]. split; [exact R|].
  exact (process_message_joins_lines (as_dict (human "!info")) (lit "!info")
           (as_dict table_AB) None eq_refl eq_refl
           [record "line1"; record "line2"] [lit "line1"; lit "line2"]
           eq_refl R).
Defined.

Lemma process_message_unexpected_format_witness :
  dict_lookup (as_dict table_odd) (strip (lit "!five")) = Some (JInt 5) /\
  process_message (human "!five") (serving table_odd) =
    ([Log INFO ProcessMessageCalled;
      Log INFO (ProcessingMessage (lit "!five"));
      Log WARNING (InvalidResponseFormat (lit "!five") (JInt 5))],
     serving table_odd, Ok None).
Proof.
  split; [reflexivity|].
  exact (proj1 (process_message_unexpected_format (as_dict (human "!five"))
                  (lit "!five") (as_dict table_odd) None eq_refl eq_refl
                  (JInt 5) eq_refl) eq_refl).
Defined.

(** A stored null gets no warning, and a line that is a number makes
    [process_message] raise. *)
Lemma process_message_unexpected_format_counterexample :
  (forall m, ~ In (Log WARNING m)
               (trace (process_message (human "!null") (serving table_odd)))) /\
  outcome (process_message (human "!null") (serving table_odd)) = Ok None /\
  outcome (process_message (human "!num") (serving table_odd)) =
    Raise TypeError.
Proof.
  split; [|split; reflexivity].
  intros m [E|[E|[]]]; discriminate E.
Qed.

Lemma failed_reload_keeps_table_witness :
  Forall (fun i => load_fails i = true) [broken; broken; gone] /\
  final (monitor_loop [broken; broken; gone] (mkStore table_AB (Some 3%Z))) =
    mkStore table_AB (Some 3%Z) /\
  final (monitor_loop ([broken; broken; gone] ++ [good_file 9 table_odd])
           (mkStore table_AB (Some 3%Z))) =
    mkStore table_odd (Some 9%Z).
Proof.
  assert (F : Forall (fun i => load_fails i = true) [broken; broken; gone]).
  { repeat constructor. }
  split; [exact F|].
  pose proof (failed_reload_keeps_table [broken; broken; gone]
                (mkStore table_AB (Some 3%Z)) F) as [H [_ [_ [_ [_ G]]]]].
  split; [exact H|].
  exact (G 9%Z table_odd eq_refl).
Defined.

(** Scenario D. *)
Lemma post_message_payload_witness :
  starts_with (lit "https://i.example.com/x.png") (lit "https://i.") /\
  requests_sent
    (trace (post_message (lit "tok") (lit "b1")
              (lit "https://i.example.com/x.png")
              (Ok (mkResponse 202 (lit "") (Raise JSONDecodeError)))
              (serving table_AB))) =
    [HttpPost (lit "https://api.groupme.com/v3/bots/post") []
       (JDict [(lit "bot_id", JStr (lit "b1"));
               (lit "text", JStr (lit ""));
               (lit "attachments",
                JList [JDict [(lit "type", JStr (lit "image"));
                              (lit "url",
                               JStr (lit "https://i.example.com/x.png"))]])])].
Proof.
  assert (P : starts_with (lit "https://i.example.com/x.png") (lit "https://i.")).
  { exists (lit "example.com/x.png"). reflexivity. }
  split; [exact P|].
  exact (proj1 (post_message_payload (lit "tok") (lit "b1")
                  (lit "https://i.example.com/x.png")
                  (Ok (mkResponse 202 (lit "") (Raise JSONDecodeError)))
                  (serving table_AB)) P).
Defined.

Lemma check_bot_callback_mismatch_logged_only_witness :
  requests_sent
    (trace (check_bot_callback (lit "tok") (lit "b1") (lit "https://new")
              (Ok two_bots) (serving table_AB))) =
    [HttpGet (lit "https://api.groupme.com/v3/bots") [(lit "token", lit "tok")]].
Proof.
  refine (proj2 (check_bot_callback_mismatch_logged_only
                   (lit "tok") (lit "b1") (lit "https://new") two_bots
                   [(lit "response",
                     JList [JDict [(lit "bot_id", JStr (lit "b0"));
                                   (lit "callback_url", JStr (lit "https://a"))];
                            JDict [(lit "bot_id", JStr (lit "b1"));
                                   (lit "callback_url",
                                    JStr (lit "https://old"))]])]
                   [(lit "bot_id", JStr (lit "b1"));
                    (lit "callback_url", JStr (lit "https://old"))]
                   [JDict [(lit "bot_id", JStr (lit "b0"));
                           (lit "callback_url", JStr (lit "https://a"))]]
                   [] (serving table_AB)
                   eq_refl eq_refl eq_refl _ eq_refl eq_refl)).
  repeat constructor. eexists. eexists. repeat split.
Defined.

Lemma process_message_null_text_witness :
  process_message
    (JDict [(lit "sender_type", JStr (lit "user")); (lit "text", JNull)])
    (serving table_AB) =
    ([Log INFO ProcessMessageCalled], serving table_AB, Raise AttributeError).
Proof.
  exact (process_message_null_text
           [(lit "sender_type", JStr (lit "user")); (lit "text", JNull)]
           (serving table_AB) eq_refl eq_refl).
Defined.

Lemma process_message_records_without_field_witness :
  outcome (process_message (human "!bare") (serving table_odd)) =
    Ok (Some (lit "")) /\
  outcome (process_message (human "!nodict") (serving table_odd)) = Ok None.
Proof.
  pose proof (process_message_records_without_field (as_dict (human "!bare"))
                (lit "!bare") (as_dict table_odd) None eq_refl eq_refl
                [JDict []] eq_refl) as [_ [H _]].
  pose proof (process_message_records_without_field (as_dict (human "!nodict"))
                (lit "!nodict") (as_dict table_odd) None eq_refl eq_refl
                [JInt 7; JStr (lit "x")] eq_refl) as [_ [_ [_ G]]].
  split.
  - change (human "!bare") with (JDict (as_dict (human "!bare"))).
    change (serving table_odd) with (mkStore (JDict (as_dict table_odd)) None).
    rewrite H; [reflexivity|].
    exists (JDict []). split; [reflexivity|]. exists []. now split.
  - change (human "!nodict") with (JDict (as_dict (human "!nodict"))).
    change (serving table_odd) with (mkStore (JDict (as_dict table_odd)) None).
    rewrite G; [reflexivity|]. repeat constructor.
Defined.

End Instances.

(* ================================================================== *)
(** * Properties beyond the specification *)

(** ** Reading the table *)

Section Reading.

Lemma quiet_read_COMMANDS : quiet read_COMMANDS.
Proof. intros st. now split. Qed.

Lemma quiet_py_strip (obj : json) : quiet (py_strip obj).
Proof. destruct obj; simpl; auto using quiet_ret, quiet_raise. Qed.

Lemma quiet_py_join (sep : str) (items : list json) : quiet (py_join sep items).
Proof.
  unfold py_join. destruct (all_strs items); auto using quiet_ret, quiet_raise.
Qed.

Lemma quiet_process_message (message : json) : quiet (process_message message).
Proof.
  unfold process_message.
  apply quiet_bind; [apply quiet_log|]. intros _.
  apply quiet_bind; [apply quiet_py_get|]. intros sender.
  destruct (eq_str sender (lit "bot")); [apply quiet_ret|].
  apply quiet_bind; [apply quiet_py_get|]. intros raw.
  apply quiet_bind; [apply quiet_py_strip|]. intros text.
  apply quiet_bind; [apply quiet_log|]. intros _.
  apply quiet_bind; [apply quiet_read_COMMANDS|]. intros commands.
  apply quiet_bind; [apply quiet_py_get|]. intros v.
  destruct v as [|b|n|bits|reply|items|d]; try apply quiet_ret;
    try (apply quiet_bind; [apply quiet_log|]; intros _; apply quiet_ret).
  destruct (response_lines items); [apply quiet_ret|].
  apply quiet_bind; [apply quiet_py_join|]. intros joined. apply quiet_ret.
Qed.

(** X1. [process_message] only reads: whatever the message and whatever the
    table, also when it raises, it leaves [COMMANDS] and [last_mtime] as they
    were and sends nothing to the platform. *)
Theorem process_message_reads_only (message : json) (st : store) :
  final (process_message message st) = st /\
  requests_sent (trace (process_message message st)) = [].
Proof.
  destruct (quiet_process_message message st) as [Ht Hs]. now split.
Qed.

(** White space put around a text does not change what is looked up. *)
Lemma strip_padding (l m r : str) :
  all_space l -> all_space r -> strip (l ++ m ++ r) = strip m.
Proof.
  intros Hl Hr.
  destruct (strip_spec m) as [l' [r' [Hm [Hl' [Hr' Ht]]]]].
  apply (strip_unique _ (l ++ l') (strip m) (r' ++ r)).
  - rewrite Hm at 1. now rewrite <- !app_assoc.
  - apply Forall_app. now split.
  - apply Forall_app. now split.
  - exact Ht.
Qed.

(** X2. White space around the text of a message is of no consequence: a
    message whose text is that of another with white space added at either
    end gets the same answer, the same log lines included. *)
Theorem process_message_ignores_padding
    (message padded : dict) (raw l r : str) (st : store) :
  eq_str (dict_get message (lit "sender_type") JNull) (lit "bot") = false ->
  eq_str (dict_get padded (lit "sender_type") JNull) (lit "bot") = false ->
  dict_get message (lit "text") (JStr (lit "")) = JStr raw ->
  dict_get padded (lit "text") (JStr (lit "")) = JStr (l ++ raw ++ r) ->
  all_space l -> all_space r ->
  process_message (JDict padded) st = process_message (JDict message) st.
Proof.
  intros Hm Hp Tm Tp Hl Hr. unfold process_message. run.
  rewrite Hm, Hp, Tm, Tp. run. rewrite (strip_padding _ _ _ Hl Hr).
  reflexivity.
Qed.

End Reading.

(** ** From the callback to the send *)

Section Dispatch.

Variables TOKEN BOT_ID : str.
Variable answer : result response.
Variable st : store.

(** X3. One event, at most one send.  [handle_callback] sends what
    [post_message] sends for the answer when [process_message] gives a string
    that is not empty, and sends nothing when it gives [None] or the empty
    string, when it raises, and when the body posted could not be read; the
    store is the same afterwards. *)
Theorem handle_callback_sends_the_answer (request_json : result json) :
  requests_sent
    (trace (handle_callback TOKEN BOT_ID request_json answer st)) =
    match request_json with
    | Raise _ => []
    | Ok data =>
        match outcome (process_message data st) with
        | Ok (Some (c :: r)) =>
            requests_sent (trace (post_message TOKEN BOT_ID (c :: r) answer st))
        | _ => []
        end
    end /\
  final (handle_callback TOKEN BOT_ID request_json answer st) = st.
Proof.
  unfold handle_callback, bind, try_except, lift, log, emit, ret.
  destruct request_json as [data|e]; simpl; [|now split].
  destruct (quiet_process_message data st) as [Hsent Hst].
  destruct (process_message data st) as [[t s'] [[[|c r]|]|e]];
    unfold trace, final, outcome, requests_sent in *; simpl in *; subst s';
    try (rewrite ?filter_app, ?app_nil_r, Hsent; now split).
  pose proof (post_message_store TOKEN BOT_ID (c :: r) answer st) as Hp.
  destruct (post_message TOKEN BOT_ID (c :: r) answer st) as [[t' s''] [b|e]];
    unfold final in Hp; simpl in *; subst s'';
    rewrite ?filter_app, Hsent; simpl; rewrite ?filter_app, ?app_nil_r;
    simpl; rewrite ?app_nil_r; now split.
Qed.

End Dispatch.

(** ** The watcher, whatever it finds *)

Section WatcherInvariants.

Lemma naps_app (t u : list event) : naps (t ++ u) = (naps t + naps u)%nat.
Proof. unfold naps. now rewrite filter_app, length_app. Qed.

Lemma reload_due_lt (last : option Z) (t : Z) :
  reload_due last t = true <-> mtime_lt last (Some t).
Proof.
  destruct last as [l|]; simpl; [apply Z.ltb_lt | tauto].
Qed.

(** One turn: it ends well, reads the time once, sleeps once, and either
    leaves the store or installs what it opened under the time it read. *)
Lemma any_iteration (i : tick) (st : store) :
  exists t s',
    monitor_iteration i st = (t, s', Ok tt) /\
    stat_attempts t = 1%nat /\ naps t = 1%nat /\
    ((s' = st /\
      load_attempts t = (if due (last_mtime st) i then 1%nat else 0%nat)) \/
     (exists tm tm' c0 c,
        at_stat i = Present tm c0 /\ at_open i = Present tm' (Some c) /\
        reload_due (last_mtime st) tm = true /\
        s' = mkStore c (Some tm))).
Proof.
  destruct i as [f g]. unfold due. simpl.
  unfold monitor_iteration, getmtime, load_commands, read_json_file,
    update_commands, read_last_mtime, write_COMMANDS, write_last_mtime.
  simpl at_stat. simpl at_open.
  destruct f as [|tm c0].
  - run. do 2 eexists. repeat split. left. now split.
  - run. destruct (reload_due (last_mtime st) tm) eqn:D.
    + destruct g as [|tm' [c|]]; simpl; do 2 eexists.
      * repeat split. left. now split.
      * repeat split. right. exists tm, tm', c0, c. repeat split. exact D.
      * repeat split. left. now split.
    + simpl. do 2 eexists. repeat split. left. now split.
Qed.

Lemma loop_step (i : tick) (rest : list tick) (st s' : store) (t : list event) :
  monitor_iteration i st = (t, s', Ok tt) ->
  monitor_loop (i :: rest) st =
    (t ++ trace (monitor_loop rest s'),
     final (monitor_loop rest s'),
     outcome (monitor_loop rest s')).
Proof.
  intros H. simpl. unfold bind. rewrite H.
  destruct (monitor_loop rest s') as [[t' s''] r]. reflexivity.
Qed.

Lemma loop_step_final (i : tick) (rest : list tick) (st s' : store)
    (t : list event) :
  monitor_iteration i st = (t, s', Ok tt) ->
  final (monitor_loop (i :: rest) st) = final (monitor_loop rest s').
Proof. intros H. now rewrite (loop_step _ _ _ _ _ H). Qed.

(** X4. The watcher does not die: over any turns, whatever is on disk and
    whatever the store, the loop ends no turn with an exception, reads the
    time of the file once a turn and sleeps five seconds once a turn. *)
Theorem monitor_loop_survives (ticks : list tick) (st : store) :
  outcome (monitor_loop ticks st) = Ok tt /\
  stat_attempts (trace (monitor_loop ticks st)) = List.length ticks /\
  naps (trace (monitor_loop ticks st)) = List.length ticks.
Proof.
  revert st. induction ticks as [|i rest IH]; intros st.
  - repeat split.
  - destruct (any_iteration i st) as [t [s' [Hi [Hn [Hz _]]]]].
    rewrite (loop_step _ _ _ _ _ Hi).
    destruct (IH s') as [Ho [Hs Hp]].
    unfold outcome, trace in *. simpl.
    rewrite stat_attempts_app, naps_app, Hn, Hz, Hs, Hp.
    repeat split. exact Ho.
Qed.

Lemma mtime_lt_trans (a b c : option Z) :
  mtime_lt a b -> mtime_lt b c -> mtime_lt a c.
Proof.
  destruct a, b, c; simpl; try tauto; lia.
Qed.

(** X5. The store changes only by a reload, and a reload moves the time
    forward: after any turns either the store is as it was, or the table is
    what one of the turns found in the file it opened and the time applied is
    later than before. *)
Theorem monitor_loop_installs_or_keeps (ticks : list tick) (st : store) :
  final (monitor_loop ticks st) = st \/
  (installed_from ticks (COMMANDS (final (monitor_loop ticks st))) /\
   mtime_lt (last_mtime st) (last_mtime (final (monitor_loop ticks st)))).
Proof.
  revert st. induction ticks as [|i rest IH]; intros st.
  - now left.
  - destruct (any_iteration i st) as [t [s' [Hi [_ [_ Hs']]]]].
    rewrite (loop_step_final _ rest _ _ _ Hi).
    destruct Hs' as [[-> _] | [tm [tm' [c0 [c [Hf [Hg [Hd ->]]]]]]]].
    + destruct (IH st) as [E | [[j [u [Hj Hu]]] Hlt]]; [now left|right].
      split; [|exact Hlt]. exists j, u. split; [now right|exact Hu].
    + right. apply reload_due_lt in Hd.
      destruct (IH (mkStore c (Some tm))) as [E | [[j [u [Hj Hu]]] Hlt]].
      * rewrite E. simpl. split; [|exact Hd].
        exists i, tm'. split; [now left|exact Hg].
      * split; [exists j, u; split; [now right|exact Hu]|].
        exact (mtime_lt_trans _ _ _ Hd Hlt).
Qed.

(** X6. A file that is not newer than the time last applied is not looked
    at: over turns at which the file is gone or no newer, the file is never
    opened and the store stays as it is, also when the content has changed
    (a copy put back with an old time is never picked up). *)
Theorem monitor_loop_skips_old_file (l : Z) (ticks : list tick) (st : store) :
  last_mtime st = Some l ->
  Forall (not_newer l) ticks ->
  final (monitor_loop ticks st) = st /\
  load_attempts (trace (monitor_loop ticks st)) = 0%nat.
Proof.
  intros Hl H. induction H as [|i rest Hi _ [IHs IHn]].
  - now split.
  - destruct (any_iteration i st) as [t [s' [Ht [_ [_ Hs']]]]].
    assert (D : due (last_mtime st) i = false).
    { unfold due, not_newer in *. destruct (at_stat i) as [|tm c0];
        [reflexivity|]. rewrite Hl. simpl. now apply Z.ltb_ge. }
    destruct Hs' as [[-> Hn] | [tm [tm' [c0 [c [Hf [_ [Hd _]]]]]]]].
    + rewrite (loop_step _ _ _ _ _ Ht). unfold final, trace in *. simpl.
      rewrite load_attempts_app, Hn, D, IHn. now split.
    + unfold due in D. rewrite Hf in D. congruence.
Qed.

End WatcherInvariants.

(** ** A table that is not an object *)

Section NonObjectTable.

Variable message : dict.
Variable raw : str.
Hypothesis not_bot :
  eq_str (dict_get message (lit "sender_type") JNull) (lit "bot") = false.
Hypothesis has_text :
  dict_get message (lit "text") (JStr (lit "")) = JStr raw.

(** X7. The watcher installs whatever JSON value the file holds.  When that
    value is not an object, every message that is not from a bot makes
    [process_message] raise afterwards, and the endpoint acknowledges it and
    sends nothing. *)
Theorem non_object_table_breaks_lookup
    (t : Z) (v : json) (st : store)
    (TOKEN BOT_ID : str) (answer : result response) :
  reload_due (last_mtime st) t = true ->
  is_dict v = false ->
  final (monitor_iteration (good_file t v) st) = mkStore v (Some t) /\
  outcome (process_message (JDict message) (mkStore v (Some t))) =
    Raise AttributeError /\
  outcome (handle_callback TOKEN BOT_ID (Ok (JDict message)) answer
             (mkStore v (Some t))) = Ok (lit "", 200%Z) /\
  requests_sent
    (trace (handle_callback TOKEN BOT_ID (Ok (JDict message)) answer
              (mkStore v (Some t)))) = [].
Proof.
  intros Hd Hv. split; [now apply good_iteration|].
  assert (P : process_message (JDict message) (mkStore v (Some t)) =
              ([Log INFO ProcessMessageCalled;
                Log INFO (ProcessingMessage (strip raw))],
               mkStore v (Some t), Raise AttributeError)).
  { unfold process_message. run. rewrite not_bot, has_text. run.
    destruct v; try reflexivity. discriminate Hv. }
  split; [now rewrite P|].
  unfold handle_callback, try_except, bind, lift, log, emit, ret.
  cbn -[process_message]. rewrite P. now split.
Qed.

End NonObjectTable.

(** ** What a send returns *)

Section SendResult.

Variables token bot_id text : str.
Variable st : store.

(** X8. [post_message] never returns [False]: it returns [True] exactly when
    the platform answers 201 or 202, and with any other answer, a 200
    included, or when the request itself fails, an exception leaves it. *)
Theorem post_message_true_or_raises (answer : result response) (b : bool) :
  outcome (post_message token bot_id text answer st) = Ok b <->
  b = true /\
  exists resp,
    answer = Ok resp /\ (status_code resp = 201%Z \/ status_code resp = 202%Z).
Proof.
  unfold post_message, requests_post. run.
  destruct answer as [resp|e]; simpl.
  - destruct (Z.eqb (status_code resp) 201) eqn:E1;
      destruct (Z.eqb (status_code resp) 202) eqn:E2; simpl;
      rewrite ?Z.eqb_eq, ?Z.eqb_neq in *; split.
    all: try (intros H; injection H as <-; split; [reflexivity|];
              exists resp; split; [reflexivity|]; tauto).
    all: try (intros [-> _]; reflexivity).
    + discriminate.
    + intros [_ [r [Hr [H|H]]]]; injection Hr as <-; contradiction.
  - split; [discriminate|]. intros [_ [r [Hr _]]]. discriminate Hr.
Qed.

End SendResult.

(** ** The check of the callback URL, the other ways *)

Section CallbackCheckMore.

Variables token bot_id callback_url : str.

Lemma eq_str_true (j : json) (s : str) : eq_str j s = true -> j = JStr s.
Proof.
  destruct j; simpl; try discriminate. intros H. apply eqb_eq in H. now subst.
Qed.

(** A scan that finds the bot has met an object with that id. *)
Lemma scan_bots_found (bots : list json) (st s' : store) (t : list event)
    (u : option json) :
  scan_bots bot_id callback_url bots st = (t, s', Ok (true, u)) ->
  exists d, In (JDict d) bots /\
            dict_lookup d (lit "bot_id") = Some (JStr bot_id).
Proof.
  revert t. induction bots as [|bot rest IH]; intros t; simpl.
  - unfold ret. discriminate.
  - unfold bind at 1.
    destruct bot as [|b|n|bits|s0|l|d]; simpl; try discriminate.
    destruct (dict_lookup d (lit "bot_id")) as [id|] eqn:Hd; simpl;
      [|discriminate].
    destruct (eq_str id bot_id) eqn:Hid.
    + intros _. exists d. split; [now left|].
      now rewrite <- (eq_str_true _ _ Hid).
    + destruct (scan_bots bot_id callback_url rest st) as [[t' s''] r] eqn:E.
      intros H. injection H as <- <- ->.
      destruct (IH t' eq_refl) as [d' [Hin Hl]].
      exists d'. split; [now right|exact Hl].
Qed.

(** X9. [check_bot_callback] returns only when the platform answered 200
    with an object whose ["response"] is a list holding an object with the
    bot's id: with any other answer an exception leaves it. *)
Theorem check_bot_callback_passes_only_if_listed
    (answer : result response) (st : store) :
  outcome (check_bot_callback token bot_id callback_url answer st) = Ok tt ->
  exists resp body bots d,
    answer = Ok resp /\ status_code resp = 200%Z /\
    json_body resp = Ok (JDict body) /\
    dict_lookup body (lit "response") = Some (JList bots) /\
    In (JDict d) bots /\
    dict_lookup d (lit "bot_id") = Some (JStr bot_id).
Proof.
  unfold check_bot_callback, requests_get.
  unfold bind at 1. unfold bind at 1. simpl.
  destruct answer as [resp|e]; simpl; [|discriminate].
  unfold bind at 1.
  destruct (Z.eqb (status_code resp) 200) eqn:Hs.
  2:{ simpl. discriminate. }
  apply Z.eqb_eq in Hs.
  unfold bind at 1. unfold lift at 1.
  destruct (json_body resp) as [body|e] eqn:Hb; [|discriminate].
  unfold bind at 1.
  destruct body as [|b|n|bits|s0|l|body]; simpl; try discriminate.
  destruct (dict_lookup body (lit "response")) as [listed|] eqn:Hl; simpl;
    [|discriminate].
  unfold bind at 1.
  assert (Hfound : forall items,
            match scan_bots bot_id callback_url items st with
            | (_, _, Ok (true, _)) =>
                exists d, In (JDict d) items /\
                          dict_lookup d (lit "bot_id") = Some (JStr bot_id)
            | _ => True
            end).
  { intros items.
    destruct (scan_bots bot_id callback_url items st) as [[t s'] [[[] u]|e]]
      eqn:E; try exact I.
    exact (scan_bots_found _ _ _ _ _ E). }
  destruct listed as [|b|n|bits|s0|bots|d0]; simpl; try discriminate.
  - (* a string: its characters are no objects *)
    unfold bind at 1. specialize (Hfound (map (fun c => JStr [c]) s0)).
    destruct (scan_bots bot_id callback_url (map (fun c => JStr [c]) s0) st)
      as [[t s'] [[[] u]|e]]; simpl; try discriminate.
    destruct Hfound as [d [Hin _]]. apply in_map_iff in Hin.
    destruct Hin as [c [Hc _]]. discriminate Hc.
  - (* a list *)
    unfold bind at 1. specialize (Hfound bots).
    destruct (scan_bots bot_id callback_url bots st)
      as [[t s'] [[[] u]|e]]; simpl; try discriminate.
    destruct Hfound as [d [Hin Hd]]. intros _.
    exists resp, body, bots, d. repeat split; assumption.
  - (* an object: its keys are no objects *)
    unfold bind at 1.
    specialize (Hfound (map (fun kv : str * json => JStr (fst kv)) d0)).
    destruct (scan_bots bot_id callback_url
                (map (fun kv : str * json => JStr (fst kv)) d0) st)
      as [[t s'] [[[] u]|e]]; simpl; try discriminate.
    destruct Hfound as [d [Hin _]]. apply in_map_iff in Hin.
    destruct Hin as [c [Hc _]]. discriminate Hc.
Qed.

(** X10. A bot that is not among those listed, the empty list included, is
    reported and fatal: after the GET, [check_bot_callback] logs the warning
    and raises, and sends nothing else. *)
Theorem check_bot_callback_unknown_bot
    (resp : response) (body : dict) (bots : list json) (st : store) :
  status_code resp = 200%Z ->
  json_body resp = Ok (JDict body) ->
  dict_lookup body (lit "response") = Some (JList bots) ->
  Forall (other_bot bot_id) bots ->
  check_bot_callback token bot_id callback_url (Ok resp) st =
    ([HttpGet (lit "https://api.groupme.com/v3/bots") [(lit "token", token)];
      Log WARNING (BotNotFound bot_id)],
     st, Raise (Exception (BotNotFoundMsg bot_id))).
Proof.
  intros Hstatus Hbody Hlist Hall.
  unfold check_bot_callback, requests_get.
  unfold bind at 1. unfold bind at 1. simpl.
  unfold bind at 1. rewrite Hstatus. simpl.
  unfold bind at 1. rewrite Hbody. simpl.
  unfold bind at 1. rewrite Hlist. simpl.
  unfold bind at 1. simpl.
  unfold bind at 1. rewrite <- (app_nil_r bots).
  rewrite (scan_bots_skips _ _ _ _ _ Hall). reflexivity.
Qed.

(** X11. When the URL registered for the bot is the one expected, the check
    says so and returns: no warning, no update built, one GET. *)
Theorem check_bot_callback_match
    (resp : response) (body bot : dict) (before after : list json)
    (st : store) :
  status_code resp = 200%Z ->
  json_body resp = Ok (JDict body) ->
  dict_lookup body (lit "response") =
    Some (JList (before ++ JDict bot :: after)) ->
  Forall (other_bot bot_id) before ->
  dict_lookup bot (lit "bot_id") = Some (JStr bot_id) ->
  dict_lookup bot (lit "callback_url") = Some (JStr callback_url) ->
  check_bot_callback token bot_id callback_url (Ok resp) st =
    ([HttpGet (lit "https://api.groupme.com/v3/bots") [(lit "token", token)];
      Log INFO (CorrectCallback bot_id callback_url)],
     st, Ok tt).
Proof.
  intros Hstatus Hbody Hlist Hbefore Hid Hurl.
  unfold check_bot_callback, requests_get.
  unfold bind at 1. unfold bind at 1. simpl.
  unfold bind at 1. rewrite Hstatus. simpl.
  unfold bind at 1. rewrite Hbody. simpl.
  unfold bind at 1. rewrite Hlist. simpl.
  unfold bind at 1. simpl.
  unfold bind at 1. rewrite (scan_bots_skips _ _ _ _ _ Hbefore). simpl.
  unfold bind at 1. rewrite Hid. simpl. rewrite eqb_refl.
  run. unfold dict_get. rewrite Hurl. simpl. rewrite eqb_refl. reflexivity.
Qed.

End CallbackCheckMore.

(* ================================================================== *)
(** * The web interface *)

(** Runs the straight-line part of a computation in [W]. *)
Ltac runw :=
  cbv [and_then attempt capture done throw act log_note flash read_file
       write_file core load_now load_commands read_json_file
       Eff.bind Eff.try_except Eff.ret Eff.raise Eff.emit Eff.log Eff.lift
       py_contains py_setitem py_delitem py_getitem save_commands
       actions after result_of mem commands_json fst snd map app];
  cbv beta iota.

Section WebFacts.

Lemma dict_set_new (d : dict) (k : str) (v : json) :
  dict_lookup d k = None -> dict_set d k v = d ++ [(k, v)].
Proof.
  induction d as [|[k' v'] d IH]; simpl; [reflexivity|].
  destruct (eqb k' k); [discriminate|]. intros H. now rewrite (IH H).
Qed.

Lemma dict_lookup_set_other (d : dict) (k k' : str) (v : json) :
  k' <> k -> dict_lookup (dict_set d k v) k' = dict_lookup d k'.
Proof.
  intros Hk. induction d as [|[k0 v0] d IH]; simpl.
  - destruct (eqb k k') eqn:E; [|reflexivity].
    apply eqb_eq in E. congruence.
  - destruct (eqb k0 k) eqn:E; simpl.
    + apply eqb_eq in E. subst k0.
      destruct (eqb k k') eqn:E'; [|reflexivity].
      apply eqb_eq in E'. congruence.
    + now rewrite IH.
Qed.

Lemma dict_set_keys (d : dict) (k : str) (v v0 : json) :
  dict_lookup d k = Some v0 ->
  map fst (dict_set d k v) = map fst d.
Proof.
  induction d as [|[k' v'] d IH]; simpl; [discriminate|].
  destruct (eqb k' k) eqn:E; simpl; [reflexivity|].
  intros H. now rewrite (IH H).
Qed.

Lemma dict_lookup_del (d : dict) (k k' : str) :
  dict_lookup (dict_del d k) k' =
    if eqb k' k then None else dict_lookup d k'.
Proof.
  unfold dict_del. induction d as [|[k0 v0] d IH]; simpl.
  - now destruct (eqb k' k).
  - destruct (eqb k0 k) eqn:E; simpl.
    + rewrite IH. apply eqb_eq in E. subst k0.
      destruct (eqb k' k) eqn:E'; [reflexivity|].
      destruct (eqb k k') eqn:E''; [|reflexivity].
      apply eqb_eq in E''. subst k'. now rewrite eqb_refl in E'.
    + rewrite IH. destruct (eqb k0 k') eqn:E'; [|reflexivity].
      apply eqb_eq in E'. subst k'. now rewrite E.
Qed.

Lemma response_lines_of_records (responses : list str) :
  response_lines (response_records responses) =
    map JStr (kept_lines responses).
Proof.
  unfold response_records, kept_lines.
  induction responses as [|r rs IH]; simpl; [reflexivity|].
  destruct (strip r) eqn:E; simpl; [exact IH|].
  rewrite IH, E. reflexivity.
Qed.

End WebFacts.

Section Pages.

Variable m : store.
Variable t0 : Z.
Variable table : dict.

Local Abbreviation w := (mkWorld m (Present t0 (Some (JDict table)))).

(** X12. A command added in the browser is answered by the bot.  With a name
    that is not blank and not yet in the file, [add_command] writes the file
    with the old commands and, last, the new one bound to the lines of the
    form, trimmed and without the blank ones; once the watcher has seen that
    file, a message whose text is the name as it was typed gets those lines
    joined by newlines, and gets [None] when every line was blank. *)
Theorem add_command_then_answers
    (field : str) (responses : list str) (t : Z)
    (message : dict) (st : store) :
  strip field <> [] ->
  dict_lookup table (strip field) = None ->
  eq_str (dict_get message (lit "sender_type") JNull) (lit "bot") = false ->
  dict_get message (lit "text") (JStr (lit "")) = JStr field ->
  reload_due (last_mtime st) t = true ->
  result_of (add_command (Some field) responses (Written t) w) =
    Done (RedirectTo (lit "show_commands") []) /\
  commands_json (after (add_command (Some field) responses (Written t) w)) =
    Present t
      (Some (JDict (table ++
                    [(strip field, JList (response_records responses))]))) /\
  outcome
    (process_message (JDict message)
       (final
          (monitor_iteration
             (mkTick
                (commands_json
                   (after (add_command (Some field) responses (Written t) w)))
                (commands_json
                   (after (add_command (Some field) responses (Written t) w))))
             st))) =
    Ok (match kept_lines responses with
        | [] => None
        | _ :: _ => Some (join newline (kept_lines responses))
        end).
Proof.
  intros Hne Habs Hbot Htext Hdue.
  assert (E : add_command (Some field) responses (Written t) w =
              ([Did OpenCommands; Did (Log INFO CommandsLoaded); OpenW;
                Dump (JDict (table ++
                       [(strip field, JList (response_records responses))]));
                Note INFO CommandsSaved;
                Flash (Added (strip field)) success_category],
               mkWorld m
                 (Present t
                    (Some (JDict (table ++
                       [(strip field, JList (response_records responses))])))),
               Done (RedirectTo (lit "show_commands") []))).
  { unfold add_command. runw.
    destruct (strip field) as [|c n] eqn:En; [contradiction|].
    runw. rewrite Habs. runw. now rewrite (dict_set_new _ _ _ Habs). }
  rewrite E. unfold result_of, after. cbn [fst snd commands_json].
  split; [reflexivity|]. split; [reflexivity|].
  set (c := JDict (table ++ [(strip field, JList (response_records responses))])).
  change (mkTick (Present t (Some c)) (Present t (Some c)))
    with (good_file t c).
  rewrite (good_iteration t c st Hdue). unfold c.
  assert (L : dict_lookup
                (table ++ [(strip field, JList (response_records responses))])
                (strip field) = Some (JList (response_records responses))).
  { rewrite <- (dict_set_new _ _ _ Habs). apply dict_lookup_set. }
  destruct (kept_lines responses) as [|l ls] eqn:K.
  - rewrite (answer_no_line message field _ (Some t) Hbot Htext _ L);
      [reflexivity|].
    now rewrite response_lines_of_records, K.
  - rewrite (answer_lines message field _ (Some t) Hbot Htext _ (l :: ls) L);
      [reflexivity|discriminate|].
    now rewrite response_lines_of_records, K.
Qed.

(** X13. [add_command] does not overwrite and does not take a blank name:
    when the name, trimmed, is empty or is already a command of the file,
    nothing is written, the file is as it was and the form is shown again. *)
Theorem add_command_keeps_existing
    (field : option str) (responses : list str) (disk : write_answer) :
  let new_command := strip (match field with Some v => v | None => lit "" end) in
  new_command = [] \/ (exists v, dict_lookup table new_command = Some v) ->
  writes (actions (add_command field responses disk w)) = [] /\
  after (add_command field responses disk w) = w /\
  result_of (add_command field responses disk w) =
    Done (add_form new_command responses).
Proof.
  intros new_command H. unfold add_command. runw. fold new_command.
  destruct new_command as [|c n] eqn:E.
  - runw. repeat split.
  - destruct H as [H|[v H]]; [discriminate|].
    runw. rewrite H. runw. repeat split.
Qed.

(** X14. [delete_command] takes the command out and leaves the others: the
    file written holds the table without that key, where that key is bound
    to nothing and every other key to what it was bound to. *)
Theorem delete_command_removes_one
    (command : str) (v : json) (t : Z) :
  command <> [] ->
  dict_lookup table command = Some v ->
  result_of (delete_command (Some command) (Written t) w) =
    Done (RedirectTo (lit "show_commands") []) /\
  commands_json (after (delete_command (Some command) (Written t) w)) =
    Present t (Some (JDict (dict_del table command))) /\
  dict_lookup (dict_del table command) command = None /\
  (forall k, k <> command ->
     dict_lookup (dict_del table command) k = dict_lookup table k).
Proof.
  intros Hne H. unfold delete_command. runw.
  destruct command as [|c n]; [contradiction|].
  runw. rewrite H. runw. repeat split.
  - rewrite dict_lookup_del. now rewrite eqb_refl.
  - intros k Hk. rewrite dict_lookup_del.
    destruct (eqb k (c :: n)) eqn:E; [|reflexivity].
    apply eqb_eq in E. contradiction.
Qed.

(** X15. [save_command] replaces the lines of one command: the file written
    has the same commands in the same order, the one edited bound to the
    lines of the form, trimmed and without the blank ones, and every other to
    what it was bound to. *)
Theorem save_command_replaces_one
    (command : str) (v : json) (new_responses : list str) (t : Z) :
  dict_lookup table command = Some v ->
  let table' :=
    dict_set table command (JList (response_records new_responses)) in
  result_of (save_command command new_responses (Written t) w) =
    Done (RedirectTo (lit "show_commands") []) /\
  commands_json (after (save_command command new_responses (Written t) w)) =
    Present t (Some (JDict table')) /\
  map fst table' = map fst table /\
  dict_lookup table' command =
    Some (JList (response_records new_responses)) /\
  (forall k, k <> command -> dict_lookup table' k = dict_lookup table k).
Proof.
  intros H table'. unfold save_command. runw. rewrite H. runw.
  repeat split.
  - exact (dict_set_keys _ _ _ _ H).
  - apply dict_lookup_set.
  - intros k Hk. now apply dict_lookup_set_other.
Qed.

(** X16. A command that is not in the file is not created by editing or
    deleting it: [save_command] and [delete_command] write nothing, leave the
    file as it is and go back to the list. *)
Theorem unknown_command_not_written
    (command : str) (new_responses : list str) (disk : write_answer) :
  dict_lookup table command = None ->
  (writes (actions (save_command command new_responses disk w)) = [] /\
   after (save_command command new_responses disk w) = w /\
   result_of (save_command command new_responses disk w) =
     Done (RedirectTo (lit "show_commands") [])) /\
  (writes (actions (delete_command (Some command) disk w)) = [] /\
   after (delete_command (Some command) disk w) = w /\
   result_of (delete_command (Some command) disk w) =
     Done (RedirectTo (lit "show_commands") [])).
Proof.
  intros H. split.
  - unfold save_command. runw. rewrite H. runw. repeat split.
  - unfold delete_command. runw. destruct command as [|c n].
    + runw. repeat split.
    + runw. rewrite H. runw. repeat split.
Qed.

End Pages.

Section BrokenFile.

Variable w : world.
Hypothesis broken_file : unreadable (commands_json w).

(** X17. With a [commands.json] that is missing or does not parse,
    [add_command] does not show the form again: its handler reads
    [new_command] before anything was assigned to it, and an
    [UnboundLocalError] leaves the view.  Nothing is written. *)
Theorem add_command_broken_file
    (field : option str) (responses : list str) (disk : write_answer) :
  result_of (add_command field responses disk w) =
    Thrown (UnboundLocalError (lit "new_command")) /\
  writes (actions (add_command field responses disk w)) = [] /\
  after (add_command field responses disk w) = w.
Proof.
  destruct w as [m f]. simpl in broken_file. unfold add_command.
  destruct f as [|t [c|]]; [|contradiction|]; runw; repeat split.
Qed.

(** X18. A file that cannot be loaded is not overwritten by an edit or a
    deletion: [save_command] and [delete_command] write nothing, leave the
    file as it is, and answer with a redirect. *)
Theorem broken_file_not_overwritten
    (command : str) (field : option str) (new_responses : list str)
    (disk : write_answer) :
  (writes (actions (save_command command new_responses disk w)) = [] /\
   after (save_command command new_responses disk w) = w /\
   result_of (save_command command new_responses disk w) =
     Done (RedirectTo (lit "edit_command") [(lit "command", command)])) /\
  (writes (actions (delete_command field disk w)) = [] /\
   after (delete_command field disk w) = w /\
   result_of (delete_command field disk w) =
     Done (RedirectTo (lit "show_commands") [])).
Proof.
  destruct w as [m f]. simpl in broken_file.
  unfold save_command, delete_command.
  destruct f as [|t [c|]]; [|contradiction|].
  - split; [runw; repeat split|].
    destruct field as [[|c n]|]; runw; repeat split.
  - split; [runw; repeat split|].
    destruct field as [[|c n]|]; runw; repeat split.
Qed.

End BrokenFile.

Section FailedWrite.

Variable m : store.
Variable t0 : Z.
Variable table : dict.
Variable errno : Z.

Local Abbreviation w := (mkWorld m (Present t0 (Some (JDict table)))).
Local Abbreviation refused := (OSError errno).

(** X19. A write that the disk refuses is reported and changes nothing.
    When [commands.json] cannot be opened for writing, [save_commands] logs
    the error and raises it again, the file staying as it was; the view that
    called it logs the error a second time, flashes it and answers with its
    error page, not with the message of success: [save_command] goes back to
    the edit page of the command, [delete_command] to the list, and
    [add_command] shows the form again with what was typed. *)
Theorem save_commands_failure
    (commands : json) (w0 : world) (command : str) (v : json)
    (responses : list str) :
  command <> [] ->
  dict_lookup table command = Some v ->
  save_commands commands (OpenFailed errno) w0 =
    ([OpenW; Note ERROR (ErrorSaving refused)], w0, Thrown refused) /\
  save_command command responses (OpenFailed errno) w =
    ([Did OpenCommands; Did (Log INFO CommandsLoaded); OpenW;
      Note ERROR (ErrorSaving refused);
      Note ERROR (ErrorSavingCommand command refused);
      Flash (ErrorText refused) error_category],
     w, Done (RedirectTo (lit "edit_command") [(lit "command", command)])) /\
  delete_command (Some command) (OpenFailed errno) w =
    ([Did OpenCommands; Did (Log INFO CommandsLoaded); OpenW;
      Note ERROR (ErrorSaving refused);
      Note ERROR (ErrorDeleting refused);
      Flash (ErrorText refused) error_category],
     w, Done (RedirectTo (lit "show_commands") [])) /\
  (forall field,
     strip field <> [] ->
     dict_lookup table (strip field) = None ->
     add_command (Some field) responses (OpenFailed errno) w =
       ([Did OpenCommands; Did (Log INFO CommandsLoaded); OpenW;
         Note ERROR (ErrorSaving refused);
         Note ERROR (ErrorAdding refused);
         Flash (ErrorText refused) error_category],
        w, Done (add_form (strip field) responses))).
Proof.
  intros Hne H. split; [|split; [|split]].
  - destruct w0 as [m0 f0]. reflexivity.
  - unfold save_command. runw. rewrite H. runw. reflexivity.
  - unfold delete_command. runw.
    destruct command as [|c n]; [contradiction|].
    runw. rewrite H. runw. reflexivity.
  - intros field Hf Habs. unfold add_command. runw.
    destruct (strip field) as [|c n] eqn:E; [contradiction|].
    runw. rewrite Habs. runw. reflexivity.
Qed.

End FailedWrite.

Section Views.

Lemma attempt_returns {A} (c : W A) (h : error -> W A) :
  (forall e, returns (h e)) -> returns (attempt c h).
Proof.
  intros H w0. unfold attempt, result_of.
  destruct (c w0) as [[t w'] [a|e]]; simpl; [now exists a|].
  destruct (H e w') as [a Ha]. unfold result_of in Ha.
  destruct (h e w') as [[t' w''] r]. simpl in *. now exists a.
Qed.

(** X20. The views that show, edit, save and delete always answer the
    browser: whatever the file holds, whatever the form carries and whatever
    the disk does, no exception leaves [show_commands], [edit_command],
    [save_command] or [delete_command]. *)
Theorem views_always_answer :
  returns show_commands /\
  (forall command, returns (edit_command command)) /\
  (forall command new_responses disk,
     returns (save_command command new_responses disk)) /\
  (forall field disk, returns (delete_command field disk)).
Proof.
  repeat split; intros; apply attempt_returns; intros e w0; runw;
    eexists; reflexivity.
Qed.

(** Removes the tests on values that are not known. *)
Ltac split_tests :=
  repeat match goal with
         | |- context [match dict_lookup ?d ?k with _ => _ end] =>
             destruct (dict_lookup d k); runw
         | |- context [if ?b then _ else _] => destruct b; runw
         end.

(** X21. Looking does not change anything: [show_commands] and
    [edit_command] write nothing and leave the file, and the store, as they
    are, whatever the file holds. *)
Theorem views_read_only (command : str) (w0 : world) :
  (writes (actions (show_commands w0)) = [] /\ after (show_commands w0) = w0) /\
  (writes (actions (edit_command command w0)) = [] /\
   after (edit_command command w0) = w0).
Proof.
  destruct w0 as [m f]. unfold show_commands, edit_command.
  destruct f as [|t [c|]]; runw; try (repeat split; reflexivity).
  split; [now split|].
  destruct c; runw; split_tests; now split.
Qed.

Variable config : dict.

Lemma eq_credential_true (j : json) (c : option str) :
  eq_credential j c = true <-> j = credential_of c.
Proof.
  destruct c as [v|]; simpl.
  - split.
    + destruct j; simpl; try discriminate. intros H.
      apply eqb_eq in H. now subst.
    + intros ->. simpl. apply eqb_refl.
  - destruct j; split; try discriminate; reflexivity.
Qed.

(** X22. No view runs without the name and the password: [require_auth]
    answers with the login challenge, and does nothing else, unless the
    request carries an [Authorization] whose name and password equal those
    of the configuration, ["admin"] and ["secret"] standing in for the ones
    it does not have; and with those it runs the view.  A name or password
    that the header does not carry is [None], which equals a null of the
    configuration and nothing else. *)
Theorem require_auth_guards
    (auth : option (option str * option str)) (f : W reply) (w0 : world) :
  ((forall u p,
      auth = Some (u, p) ->
      dict_get config (lit "admin_username") (JStr (lit "admin")) =
        credential_of u ->
      dict_get config (lit "admin_password") (JStr (lit "secret")) =
        credential_of p ->
      False) ->
   require_auth config auth f w0 = ([], w0, Done LoginRequired)) /\
  (forall u p,
     auth = Some (u, p) ->
     dict_get config (lit "admin_username") (JStr (lit "admin")) =
       credential_of u ->
     dict_get config (lit "admin_password") (JStr (lit "secret")) =
       credential_of p ->
     require_auth config auth f w0 = f w0).
Proof.
  unfold require_auth, check_auth. split.
  - intros H. destruct auth as [[u p]|]; [|reflexivity].
    destruct (eq_credential
                (dict_get config (lit "admin_username") (JStr (lit "admin")))
                u) eqn:Eu; [|reflexivity].
    destruct (eq_credential
                (dict_get config (lit "admin_password") (JStr (lit "secret")))
                p) eqn:Ep; [|reflexivity].
    exfalso. apply (H u p eq_refl); now apply eq_credential_true.
  - intros u p -> Hu Hp.
    apply eq_credential_true in Hu. apply eq_credential_true in Hp.
    now rewrite Hu, Hp.
Qed.

End Views.

(* ================================================================== *)
(** * Fetching, creating and the choice of the group *)

Section Groups.

Variable m : store.
Variable f : file_state.
Local Abbreviation w := (mkWorld m f).

Lemma getitem_group (d : dict) (k : str) (v : json) :
  dict_lookup d k = Some v ->
  core (py_getitem (JDict d) k) w = ([], w, Done v).
Proof. intros H. runw. rewrite H. reflexivity. Qed.

Lemma log_groups_ok (groups : list json) (i : Z) :
  Forall is_group groups ->
  exists t,
    log_groups i groups w = (t, w, Done tt) /\ requests_made t = [].
Proof.
  intros H. revert i.
  induction H as [|g rest [id [d [name [-> [Hn Hi]]]]] _ IH]; intros i.
  - exists []. now split.
  - destruct (IH (i + 1)%Z) as [t [Ht Hr]]. cbn [log_groups].
    unfold and_then at 1. rewrite (getitem_group _ _ _ Hn).
    unfold and_then at 1. rewrite (getitem_group _ _ _ Hi).
    unfold and_then at 1. unfold log_note, act. rewrite Ht.
    eexists. split; [reflexivity|]. exact Hr.
Qed.

(** The search gives the first group with that id, or [None]. *)
Lemma find_group_ok (saved : str) (groups : list json) :
  Forall is_group groups ->
  exists g,
    find_group saved groups w = ([], w, Done g) /\
    ((g = JNull /\ Forall (fun x => ~ group_with_id (JStr saved) x) groups) \/
     (In g groups /\ group_with_id (JStr saved) g)).
Proof.
  induction 1 as [|g rest [id [d [name [-> [Hn Hi]]]]] _ [g' [Hg' IH]]].
  - exists JNull. split; [reflexivity|]. left. now split.
  - cbn [find_group]. unfold and_then. rewrite (getitem_group _ _ _ Hi).
    destruct (eq_str id saved) eqn:E.
    + exists (JDict d). split; [reflexivity|]. right. split; [now left|].
      exists d, name. repeat split; [exact Hn|].
      destruct id; simpl in E; try discriminate.
      apply eqb_eq in E. now subst.
    + exists g'. rewrite Hg'. split; [reflexivity|].
      destruct IH as [[-> Hall] | [Hin Hw]].
      * left. split; [reflexivity|]. constructor; [|exact Hall].
        intros [d' [name' [Hd [_ Hi']]]]. injection Hd as <-.
        rewrite Hi in Hi'. injection Hi' as ->.
        simpl in E. now rewrite eqb_refl in E.
      * right. split; [now right|exact Hw].
Qed.

End Groups.

Section Steps.

Context {A B : Type}.
Variable c : W A.
Variable k : A -> W B.
Variables (w0 w' : world) (t : list action) (a : A).
Hypothesis first_step : c w0 = (t, w', Done a).

Lemma result_of_and_then :
  result_of (and_then c k w0) = result_of (k a w').
Proof.
  unfold and_then, result_of. rewrite first_step.
  now destruct (k a w') as [[t' w''] r].
Qed.

Lemma after_and_then : after (and_then c k w0) = after (k a w').
Proof.
  unfold and_then, after. rewrite first_step.
  now destruct (k a w') as [[t' w''] r].
Qed.

Lemma requests_made_and_then :
  requests_made (actions (and_then c k w0)) =
    requests_made t ++ requests_made (actions (k a w')).
Proof.
  unfold and_then, actions, requests_made. rewrite first_step.
  destruct (k a w') as [[t' w''] r]. simpl. apply filter_app.
Qed.

End Steps.

Section Fetching.

Variable m : store.
Variable f : file_state.
Variable token : str.
Local Abbreviation w := (mkWorld m f).

Lemma dict_lookup_head (k : str) (v : json) (d : dict) :
  dict_lookup ((k, v) :: d) k = Some v.
Proof. simpl. now rewrite eqb_refl. Qed.

Lemma get_authenticated_user_ok (payload : json) :
  get_authenticated_user token (Ok (ok_reply payload)) w =
    ([Did (HttpGet (lit "https://api.groupme.com/v3/users/me")
             [(lit "token", token)])],
     w, Done payload).
Proof. reflexivity. Qed.

Lemma get_user_groups_ok (payload : json) :
  get_user_groups token (Ok (ok_reply payload)) w =
    ([Get (lit "https://api.groupme.com/v3/groups")
        [(lit "token", JStr token); (lit "per_page", JInt 10)]],
     w, Done payload).
Proof. reflexivity. Qed.

End Fetching.

Section SetupBot.

Variable m : store.
Variable f : file_state.
Variables token callback_url : str.

(** The platform knows the token and lists groups that have a name and an
    id. *)
Variable user : dict.
Variables user_name user_id : json.
Hypothesis has_name : dict_lookup user (lit "name") = Some user_name.
Hypothesis has_id : dict_lookup user (lit "id") = Some user_id.
Variable groups : list json.
Hypothesis listed : Forall is_group groups.

Local Abbreviation w := (mkWorld m f).
Local Abbreviation me := (Ok (ok_reply (JDict user))).
Local Abbreviation listing := (Ok (ok_reply (JList groups))).

Ltac step H := rewrite (result_of_and_then _ _ _ _ _ _ H).
Ltac note_step := rewrite (result_of_and_then _ _ _ _ _ _ eq_refl).

(** Up to the choice: the user is greeted, the groups are listed. *)
Ltac to_choice :=
  unfold setup_bot;
  step (get_authenticated_user_ok m f token (JDict user));
  step (getitem_group m f _ _ _ has_name);
  step (getitem_group m f _ _ _ has_id);
  note_step;
  step (get_user_groups_ok m f token (JList groups)).

Lemma group_truthy (id g : json) : group_with_id id g -> py_truthy g = true.
Proof.
  intros [d [name [-> [Hn _]]]]. destruct d; [discriminate Hn|reflexivity].
Qed.

Lemma group_name (id g : json) :
  group_with_id id g ->
  exists name, core (py_getitem g (lit "name")) w = ([], w, Done name).
Proof.
  intros [d [name [-> [Hn _]]]]. exists name. now apply getitem_group.
Qed.

Lemma group_id (id g : json) :
  group_with_id id g ->
  core (py_getitem g (lit "id")) w = ([], w, Done id).
Proof.
  intros [d [name [-> [_ Hi]]]]. now apply getitem_group.
Qed.

(** X23. A saved group that is still listed is kept: when [saved_group_id]
    is the id of one of the groups the platform lists, [setup_bot] returns
    it, wherever in the list that group stands. *)
Theorem setup_bot_keeps_saved_group (saved : str) (g : json) :
  saved <> [] ->
  In g groups ->
  group_with_id (JStr saved) g ->
  result_of (setup_bot token callback_url (Some saved) me listing w) =
    Done (JStr saved).
Proof.
  intros Hne Hin Hg. to_choice.
  destruct groups as [|g0 rest] eqn:Eg; [contradiction|].
  cbn [py_truthy negb]. note_step. rewrite <- Eg in *.
  step (eq_refl : core (py_iter (JList groups)) w = ([], w, Done groups)).
  destruct (log_groups_ok m f groups 0 listed) as [t [Ht _]]. step Ht.
  destruct saved as [|c n]; [contradiction|].
  destruct (find_group_ok m f (c :: n) groups listed) as [g' [Hf Hcase]].
  step Hf.
  destruct Hcase as [[_ Hnone] | [_ Hg']].
  - exfalso. rewrite Forall_forall in Hnone. exact (Hnone g Hin Hg).
  - rewrite (group_truthy _ _ Hg').
    destruct (group_name _ _ Hg') as [name Hn]. step Hn. note_step.
    reflexivity.
Qed.

(** X24. Otherwise the first group is taken: when nothing was saved, or the
    empty string, or an id that no listed group has, [setup_bot] returns the
    id of the first group of the list. *)
Theorem setup_bot_falls_back_to_first
    (saved_group_id : option str) (first id : json) (rest : list json) :
  groups = first :: rest ->
  group_with_id id first ->
  (saved_group_id = None \/ saved_group_id = Some [] \/
   exists saved,
     saved_group_id = Some saved /\
     Forall (fun x => ~ group_with_id (JStr saved) x) groups) ->
  result_of (setup_bot token callback_url saved_group_id me listing w) =
    Done id.
Proof.
  intros Eg Hfirst Hsaved. to_choice.
  assert (Htrue : py_truthy (JList groups) = true) by now rewrite Eg.
  rewrite Htrue. cbn [negb]. note_step.
  step (eq_refl : core (py_iter (JList groups)) w = ([], w, Done groups)).
  destruct (log_groups_ok m f groups 0 listed) as [t [Ht _]]. step Ht.
  assert (Hpick : py_first (JList groups) w = ([], w, Done first))
    by now rewrite Eg.
  destruct (group_name _ _ Hfirst) as [name Hn].
  assert (Hnothing :
    result_of
      ((first <- py_first (JList groups);;
        group_id <- core (py_getitem first (lit "id"));;
        first0 <- py_first (JList groups);;
        name <- core (py_getitem first0 (lit "name"));;
        log_note INFO (UsingFirstGroup name group_id);; done group_id)%sys w) =
    Done id).
  { step Hpick. step (group_id _ _ Hfirst). step Hpick. step Hn. note_step.
    reflexivity. }
  destruct Hsaved as [-> | [-> | [saved [-> Hnone]]]];
    [exact Hnothing | exact Hnothing |].
  destruct saved as [|c n]; [exact Hnothing|].
  destruct (find_group_ok m f (c :: n) groups listed) as [g' [Hf Hcase]].
  step Hf.
  destruct Hcase as [[-> _] | [Hin Hg']].
  - cbn [py_truthy]. note_step. step Hpick.
    now rewrite (group_id _ _ Hfirst).
  - exfalso. rewrite Forall_forall in Hnone. exact (Hnone g' Hin Hg').
Qed.

End SetupBot.

Section SetupFails.

Variable m : store.
Variable f : file_state.
Variables token callback_url : str.
Variable saved_group_id : option str.
Local Abbreviation w := (mkWorld m f).

(** X25. The two ways [setup_bot] gives up.  When the platform does not
    answer the first request with 200, the failure is logged and raised and
    the groups are not asked for; when it lists no group, ["No groups
    found"] is logged and raised after the two requests.  Neither the file
    nor the store is touched. *)
Theorem setup_bot_fatal
    (refusal : response) (listing : result response)
    (user : dict) (user_name user_id payload : json) :
  (status_code refusal <> 200%Z ->
   setup_bot token callback_url saved_group_id (Ok refusal) listing w =
     ([Did (HttpGet (lit "https://api.groupme.com/v3/users/me")
              [(lit "token", token)]);
       Note ERROR
         (LogFailure
            (ApiRequestFailed (status_code refusal) (text_body refusal)))],
      w,
      Thrown (Failure (ApiRequestFailed (status_code refusal)
                         (text_body refusal))))) /\
  (dict_lookup user (lit "name") = Some user_name ->
   dict_lookup user (lit "id") = Some user_id ->
   py_truthy payload = false ->
   setup_bot token callback_url saved_group_id
     (Ok (ok_reply (JDict user))) (Ok (ok_reply payload)) w =
     ([Did (HttpGet (lit "https://api.groupme.com/v3/users/me")
              [(lit "token", token)]);
       Note INFO (AuthenticatedAs user_name user_id);
       Get (lit "https://api.groupme.com/v3/groups")
         [(lit "token", JStr token); (lit "per_page", JInt 10)];
       Note ERROR (LogFailure NoGroupsFound)],
      w, Thrown (Failure NoGroupsFound))).
Proof.
  split.
  - intros H. apply Z.eqb_neq in H.
    unfold setup_bot, get_authenticated_user, requests_get.
    unfold and_then at 1. unfold and_then at 1. unfold core at 1.
    unfold Eff.bind, Eff.emit, Eff.lift. cbn [mem fst snd map].
    rewrite H. reflexivity.
  - intros Hn Hi Hp. unfold setup_bot.
    unfold and_then at 1. rewrite get_authenticated_user_ok.
    unfold and_then at 1. rewrite (getitem_group m f _ _ _ Hn).
    unfold and_then at 1. rewrite (getitem_group m f _ _ _ Hi).
    unfold and_then at 1. unfold log_note at 1, act at 1.
    unfold and_then at 1. rewrite get_user_groups_ok.
    rewrite Hp. reflexivity.
Qed.

End SetupFails.

Section SetupInvariant.

Lemma and_then_inv {A B} (c : W A) (k : A -> W B) (w0 : world) (b : B) :
  result_of (and_then c k w0) = Done b ->
  exists t w' a, c w0 = (t, w', Done a) /\ result_of (k a w') = Done b.
Proof.
  unfold and_then, result_of.
  destruct (c w0) as [[t w'] [a|e]]; [|discriminate].
  intros H. exists t, w', a. split; [reflexivity|].
  now destruct (k a w') as [[t' w''] r].
Qed.

Lemma getitem_inv (g : json) (key : str) (w0 w' : world) (t : list action)
    (v : json) :
  core (py_getitem g key) w0 = (t, w', Done v) ->
  exists d, g = JDict d /\ dict_lookup d key = Some v.
Proof.
  unfold core, py_getitem.
  destruct g as [|b|n|bits|s0|l|d]; simpl; try discriminate.
  destruct (dict_lookup d key) as [v'|] eqn:E; simpl; [|discriminate].
  intros H. injection H as _ _ ->. now exists d.
Qed.

Lemma get_user_groups_inv (token : str) (listing : result response)
    (w0 w' : world) (t : list action) (groups : json) :
  get_user_groups token listing w0 = (t, w', Done groups) ->
  exists resp body,
    listing = Ok resp /\ status_code resp = 200%Z /\
    json_body resp = Ok (JDict body) /\
    dict_lookup body (lit "response") = Some groups.
Proof.
  unfold get_user_groups, requests_get_json.
  unfold and_then at 1. unfold and_then at 1. unfold act at 1.
  unfold core at 1, Eff.lift.
  destruct listing as [resp|e]; cbn [fst snd map mem]; [|discriminate].
  destruct (Z.eqb (status_code resp) 200) eqn:Hs.
  - apply Z.eqb_eq in Hs. unfold and_then at 1. unfold core at 1, Eff.lift.
    destruct (json_body resp) as [body|e] eqn:Hb; cbn [fst snd map mem];
      [|discriminate].
    match goal with
    | |- context [core (py_getitem body (lit "response")) ?x] =>
        destruct (core (py_getitem body (lit "response")) x)
          as [[t1 w1] [v|e]] eqn:E; [|discriminate]
    end.
    intros H. injection H as _ _ ->.
    destruct (getitem_inv _ _ _ _ _ _ E) as [d [-> Hd]].
    now exists resp, d.
  - unfold and_then, log_note, act, throw. discriminate.
Qed.

Lemma log_groups_inv (items : list json) (i : Z) (w0 : world) :
  result_of (log_groups i items w0) = Done tt -> Forall is_group items.
Proof.
  revert i w0. induction items as [|g rest IH]; intros i w0 H.
  - constructor.
  - cbn [log_groups] in H.
    apply and_then_inv in H. destruct H as [t1 [w1 [name [Hn H]]]].
    apply and_then_inv in H. destruct H as [t2 [w2 [id [Hi H]]]].
    apply and_then_inv in H. destruct H as [t3 [w3 [[] [_ H]]]].
    destruct (getitem_inv _ _ _ _ _ _ Hn) as [d [-> Hdn]].
    destruct (getitem_inv _ _ _ _ _ _ Hi) as [d' [Hd' Hdi]].
    injection Hd' as <-.
    constructor; [|exact (IH _ _ H)].
    exists id, d, name. now repeat split.
Qed.

Lemma find_group_inv (saved : str) (items : list json) (w0 : world)
    (g : json) :
  result_of (find_group saved items w0) = Done g ->
  py_truthy g = true ->
  In g items /\
  exists d, g = JDict d /\ dict_lookup d (lit "id") = Some (JStr saved).
Proof.
  revert w0. induction items as [|x rest IH]; intros w0 H Ht.
  - cbn in H. injection H as <-. discriminate Ht.
  - cbn [find_group] in H.
    apply and_then_inv in H. destruct H as [t1 [w1 [id [Hi H]]]].
    destruct (getitem_inv _ _ _ _ _ _ Hi) as [d [-> Hd]].
    destruct (eq_str id saved) eqn:E.
    + cbn in H. injection H as <-. split; [now left|].
      exists d. split; [reflexivity|].
      destruct id; simpl in E; try discriminate.
      apply eqb_eq in E. now subst.
    + destruct (IH _ H Ht) as [Hin Hg]. split; [now right|exact Hg].
Qed.

(** What is gone through is a list, when it is not empty and holds groups. *)
Lemma iter_groups (groups : json) (items : list json) (w0 w' : world)
    (t : list action) :
  core (py_iter groups) w0 = (t, w', Done items) ->
  py_truthy groups = true ->
  Forall is_group items ->
  groups = JList items.
Proof.
  unfold core, py_iter.
  destruct groups as [|b|n|bits|s0|l|d]; simpl; try discriminate.
  - intros H. injection H as _ _ <-.
    destruct s0 as [|c s0]; [discriminate|]. intros _ Hall.
    inversion Hall as [|x xs [id [d [name [Hd _]]]] _]. discriminate Hd.
  - intros H. now injection H as _ _ <-.
  - intros H. injection H as _ _ <-.
    destruct d as [|[k v] d]; [discriminate|]. intros _ Hall.
    inversion Hall as [|x xs [id [d' [name [Hd _]]]] _]. discriminate Hd.
Qed.

Lemma first_inv (items : list json) (w0 w' : world) (t : list action)
    (x : json) :
  py_first (JList items) w0 = (t, w', Done x) -> In x items.
Proof.
  destruct items as [|y rest]; cbn; [discriminate|].
  intros H. injection H as _ _ <-. now left.
Qed.

Lemma group_has_id (x : json) (d : dict) (id : json) :
  is_group x -> x = JDict d -> dict_lookup d (lit "id") = Some id ->
  group_with_id id x.
Proof.
  intros [id' [d' [name [-> [Hn _]]]]] Hd Hi. injection Hd as ->.
  exists d, name. now repeat split.
Qed.

(** X26. Whatever the platform answers and whatever was saved, an id that
    [setup_bot] returns is the id of a group of the list the platform gave:
    it never returns a saved id that is not listed, nor an id of its own
    making. *)
Theorem setup_bot_returns_listed_group
    (token callback_url : str) (saved_group_id : option str)
    (me listing : result response) (w0 : world) (group_id : json) :
  result_of (setup_bot token callback_url saved_group_id me listing w0) =
    Done group_id ->
  exists resp body groups g,
    listing = Ok resp /\ status_code resp = 200%Z /\
    json_body resp = Ok (JDict body) /\
    dict_lookup body (lit "response") = Some (JList groups) /\
    In g groups /\ group_with_id group_id g.
Proof.
  unfold setup_bot. intros H.
  apply and_then_inv in H. destruct H as [t1 [w1 [user_info [_ H]]]].
  apply and_then_inv in H. destruct H as [t2 [w2 [name [_ H]]]].
  apply and_then_inv in H. destruct H as [t3 [w3 [id [_ H]]]].
  apply and_then_inv in H. destruct H as [t4 [w4 [[] [_ H]]]].
  apply and_then_inv in H. destruct H as [t5 [w5 [groups [Hg H]]]].
  destruct (get_user_groups_inv _ _ _ _ _ _ Hg)
    as [resp [body [Hl [Hs [Hb Hr]]]]].
  destruct (py_truthy groups) eqn:Htrue; cbn [negb] in H.
  2:{ apply and_then_inv in H. destruct H as [t6 [w6 [[] [_ H]]]].
      discriminate H. }
  apply and_then_inv in H. destruct H as [t6 [w6 [[] [_ H]]]].
  apply and_then_inv in H. destruct H as [t7 [w7 [items [Hit H]]]].
  apply and_then_inv in H. destruct H as [t8 [w8 [[] [Hlog H]]]].
  assert (Hall : Forall is_group items).
  { apply (log_groups_inv items 0 w7). now rewrite Hlog. }
  pose proof (iter_groups _ _ _ _ _ Hit Htrue Hall) as ->.
  assert (Hfirst : forall w9,
            result_of
              ((first <- py_first (JList items);;
                core (py_getitem first (lit "id")))%sys w9) = Done group_id ->
            exists g, In g items /\ group_with_id group_id g).
  { intros w9 H9.
    apply and_then_inv in H9. destruct H9 as [t9 [w10 [x [Hx H9]]]].
    destruct (core (py_getitem x (lit "id")) w10) as [[t10 w11] [v|e]] eqn:E;
      [|discriminate H9].
    cbn in H9. injection H9 as ->.
    destruct (getitem_inv _ _ _ _ _ _ E) as [d [-> Hd]].
    pose proof (first_inv _ _ _ _ _ Hx) as Hin.
    exists (JDict d). split; [exact Hin|].
    rewrite Forall_forall in Hall.
    exact (group_has_id _ _ _ (Hall _ Hin) eq_refl Hd). }
  assert (Hnothing : forall w9,
            result_of
              ((first <- py_first (JList items);;
                gid <- core (py_getitem first (lit "id"));;
                first0 <- py_first (JList items);;
                name0 <- core (py_getitem first0 (lit "name"));;
                log_note INFO (UsingFirstGroup name0 gid);; done gid)%sys w9) =
              Done group_id ->
            exists g, In g items /\ group_with_id group_id g).
  { intros w9 H9.
    apply and_then_inv in H9. destruct H9 as [t9 [w10 [x [Hx H9]]]].
    apply and_then_inv in H9. destruct H9 as [t10 [w11 [gid [Hgid H9]]]].
    apply and_then_inv in H9. destruct H9 as [t11 [w12 [x' [_ H9]]]].
    apply and_then_inv in H9. destruct H9 as [t12 [w13 [n' [_ H9]]]].
    apply and_then_inv in H9. destruct H9 as [t13 [w14 [[] [_ H9]]]].
    cbn in H9. injection H9 as ->.
    destruct (getitem_inv _ _ _ _ _ _ Hgid) as [d [-> Hd]].
    pose proof (first_inv _ _ _ _ _ Hx) as Hin.
    exists (JDict d). split; [exact Hin|].
    rewrite Forall_forall in Hall.
    exact (group_has_id _ _ _ (Hall _ Hin) eq_refl Hd). }
  assert (Hfound : exists g, In g items /\ group_with_id group_id g).
  { destruct saved_group_id as [[|c n]|];
      [exact (Hnothing _ H) | | exact (Hnothing _ H)].
    apply and_then_inv in H. destruct H as [t9 [w9 [sg [Hsg H]]]].
    destruct (py_truthy sg) eqn:Hsgt.
    - apply and_then_inv in H. destruct H as [t10 [w10 [n' [_ H]]]].
      apply and_then_inv in H. destruct H as [t11 [w11 [[] [_ H]]]].
      cbn in H. injection H as <-.
      assert (Hr' : result_of (find_group (c :: n) items w8) = Done sg)
        by now rewrite Hsg.
      destruct (find_group_inv _ _ _ _ Hr' Hsgt) as [Hin [d [-> Hd]]].
      exists (JDict d). split; [exact Hin|].
      rewrite Forall_forall in Hall.
      exact (group_has_id _ _ _ (Hall _ Hin) eq_refl Hd).
    - apply and_then_inv in H. destruct H as [t10 [w10 [[] [_ H]]]].
      exact (Hfirst _ H). }
  destruct Hfound as [g [Hin Hgw]].
  exists resp, body, items, g. now repeat split.
Qed.

End SetupInvariant.

Section Creating.

Variable token : str.
Variable w0 : world.

(** Removes the tests on what the platform answered. *)
Ltac split_reply :=
  repeat match goal with
         | |- context [match dict_lookup ?d ?k with _ => _ end] =>
             destruct (dict_lookup d k) eqn:?; cbn
         | |- context [match ?j with JNull => _ | _ => _ end] =>
             destruct j; cbn
         | |- context [match ?r with Ok _ => _ | Raise _ => _ end] =>
             destruct r eqn:?; cbn
         | |- context [if ?b then _ else _] => destruct b eqn:?; cbn
         end.

(** X27. [create_bot] sends one request, the POST of the bot to [/bots],
    with the callback URL in it when one is given that is not empty; and it
    returns an id exactly when the platform answers 201 with an object that
    has it under ["response"]["bot_id"]: any other status, a 200 included,
    raises. *)
Theorem create_bot_contract
    (group_id : json) (bot_name : str) (callback_url : option str)
    (reply : result response) :
  requests_made
    (actions (create_bot token group_id bot_name callback_url reply w0)) =
    [Did (HttpPost (lit "https://api.groupme.com/v3/bots")
            [(lit "token", token)]
            (JDict
               [(lit "bot",
                 JDict
                   ([(lit "name", JStr bot_name); (lit "group_id", group_id)]
                    ++ match callback_url with
                       | Some ((_ :: _) as u) =>
                           [(lit "callback_url", JStr u)]
                       | _ => []
                       end))]))] /\
  (forall bot_id,
     result_of (create_bot token group_id bot_name callback_url reply w0) =
       Done bot_id <->
     exists resp body inner,
       reply = Ok resp /\ status_code resp = 201%Z /\
       json_body resp = Ok (JDict body) /\
       dict_lookup body (lit "response") = Some (JDict inner) /\
       dict_lookup inner (lit "bot_id") = Some bot_id).
Proof.
  split.
  - unfold create_bot, requests_post.
    assert (E : forall u,
              dict_set [(lit "name", JStr bot_name); (lit "group_id", group_id)]
                (lit "callback_url") (JStr u) =
              [(lit "name", JStr bot_name); (lit "group_id", group_id);
               (lit "callback_url", JStr u)]) by reflexivity.
    destruct callback_url as [[|c n]|]; rewrite ?E;
      cbv [and_then core Eff.bind Eff.emit Eff.lift Eff.ret Eff.raise
           log_note act done throw py_getitem actions requests_made
           fst snd mem commands_json map app];
      cbv beta iota; split_reply; reflexivity.
  - intros bot_id. unfold create_bot, requests_post. split.
    + intros H.
      apply and_then_inv in H. destruct H as [t1 [w1 [resp [Hr H]]]].
      assert (Hreply : reply = Ok resp).
      { revert Hr. unfold core, Eff.bind, Eff.emit, Eff.lift.
        destruct reply as [r|e]; cbn; [|discriminate].
        intros Hr. now injection Hr as _ _ ->. }
      destruct (Z.eqb (status_code resp) 201) eqn:Hs.
      2:{ apply and_then_inv in H. destruct H as [t2 [w2 [[] [_ H]]]].
          discriminate H. }
      apply Z.eqb_eq in Hs.
      apply and_then_inv in H. destruct H as [t2 [w2 [body [Hb H]]]].
      apply and_then_inv in H. destruct H as [t3 [w3 [inner [Hi H]]]].
      apply and_then_inv in H. destruct H as [t4 [w4 [id [Hid H]]]].
      apply and_then_inv in H. destruct H as [t5 [w5 [[] [_ H]]]].
      cbn in H. injection H as ->.
      destruct (getitem_inv _ _ _ _ _ _ Hi) as [d [-> Hd]].
      destruct (getitem_inv _ _ _ _ _ _ Hid) as [d' [-> Hd']].
      exists resp, d, d'. repeat split; try assumption.
      revert Hb. unfold core, Eff.lift.
      destruct (json_body resp) as [b|e]; cbn; [|discriminate].
      intros Hb. now injection Hb as _ _ ->.
    + intros [resp [body [inner [-> [Hs [Hb [Hl Hi]]]]]]].
      cbv [and_then core Eff.bind Eff.emit Eff.lift Eff.ret Eff.raise
           log_note act done throw py_getitem result_of
           fst snd mem commands_json map app].
      cbv beta iota. rewrite Hs, Hb. cbn. rewrite Hl. cbn. rewrite Hi.
      reflexivity.
Qed.

(** X28. No new messages is not an error: to a 304 [get_group_messages]
    answers with the empty list, without reading the body; [since_id] goes
    into the query when it is given and not empty. *)
Theorem get_group_messages_not_modified
    (group_id : str) (since_id : option str) (resp : response) :
  status_code resp = 304%Z ->
  get_group_messages token group_id since_id (Ok resp) w0 =
    ([Get (lit "https://api.groupme.com/v3/groups/" ++ group_id ++
           lit "/messages")
        ([(lit "token", JStr token); (lit "limit", JInt 20)] ++
         match since_id with
         | Some ((_ :: _) as id) => [(lit "since_id", JStr id)]
         | _ => []
         end)],
     w0, Done (JList [])).
Proof.
  intros Hs. unfold get_group_messages, requests_get_json.
  destruct w0 as [m f].
  cbv [and_then core Eff.lift act done fst snd mem commands_json map].
  cbv beta iota. rewrite Hs.
  destruct since_id as [[|c n]|]; reflexivity.
Qed.

End Creating.

(* ================================================================== *)
(** * Instances of the properties beyond the specification *)

Section MoreInstances.

Lemma process_message_ignores_padding_witness :
  all_space (lit "  ") /\ all_space (lit " ") /\
  process_message (human "  !ping ") (serving table_AB) =
  process_message (human "!ping") (serving table_AB).
Proof.
  assert (L : all_space (lit "  ")) by (repeat constructor).
  assert (R : all_space (lit " ")) by (repeat constructor).
  split; [exact L|]. split; [exact R|].
  exact (process_message_ignores_padding
           (as_dict (human "!ping")) (as_dict (human "  !ping "))
           (lit "!ping") (lit "  ") (lit " ") (serving table_AB)
           eq_refl eq_refl eq_refl eq_refl L R).
Defined.

Lemma monitor_loop_skips_old_file_witness :
  Forall (not_newer 5) [good_file 5 table_odd; gone; good_file 2 table_odd] /\
  final (monitor_loop [good_file 5 table_odd; gone; good_file 2 table_odd]
           (mkStore table_AB (Some 5%Z))) = mkStore table_AB (Some 5%Z).
Proof.
  assert (F : Forall (not_newer 5)
                [good_file 5 table_odd; gone; good_file 2 table_odd]).
  { repeat constructor; unfold not_newer; simpl; lia. }
  split; [exact F|].
  exact (proj1 (monitor_loop_skips_old_file 5 _ (mkStore table_AB (Some 5%Z))
                  eq_refl F)).
Defined.

Lemma non_object_table_breaks_lookup_witness :
  outcome (process_message (human "!ping") (mkStore (JList []) (Some 9%Z))) =
    Raise AttributeError /\
  final (monitor_iteration (good_file 9 (JList []))
           (mkStore table_AB (Some 3%Z))) = mkStore (JList []) (Some 9%Z).
Proof.
  pose proof (non_object_table_breaks_lookup (as_dict (human "!ping"))
                (lit "!ping") eq_refl eq_refl 9 (JList [])
                (mkStore table_AB (Some 3%Z)) (lit "tok") (lit "b1")
                (Raise ConnectionError) eq_refl eq_refl) as [H [G _]].
  split; [exact G|exact H].
Defined.

Lemma check_bot_callback_passes_only_if_listed_witness :
  outcome (check_bot_callback (lit "tok") (lit "b1") (lit "https://old")
             (Ok two_bots) (serving table_AB)) = Ok tt /\
  exists resp body bots d,
    Ok two_bots = Ok resp /\ status_code resp = 200%Z /\
    json_body resp = Ok (JDict body) /\
    dict_lookup body (lit "response") = Some (JList bots) /\
    In (JDict d) bots /\
    dict_lookup d (lit "bot_id") = Some (JStr (lit "b1")).
Proof.
  split; [reflexivity|].
  exact (check_bot_callback_passes_only_if_listed (lit "tok") (lit "b1")
           (lit "https://old") (Ok two_bots) (serving table_AB) eq_refl).
Defined.

Lemma check_bot_callback_unknown_bot_witness :
  outcome (check_bot_callback (lit "tok") (lit "zz") (lit "https://new")
             (Ok two_bots) (serving table_AB)) =
    Raise (Exception (BotNotFoundMsg (lit "zz"))).
Proof.
  refine (f_equal snd
            (check_bot_callback_unknown_bot (lit "tok") (lit "zz")
               (lit "https://new") two_bots _ _ (serving table_AB)
               eq_refl eq_refl eq_refl _)).
  repeat constructor; do 2 eexists; repeat split.
Defined.

Lemma check_bot_callback_match_witness :
  check_bot_callback (lit "tok") (lit "b1") (lit "https://old")
    (Ok two_bots) (serving table_AB) =
    ([HttpGet (lit "https://api.groupme.com/v3/bots")
        [(lit "token", lit "tok")];
      Log INFO (CorrectCallback (lit "b1") (lit "https://old"))],
     serving table_AB, Ok tt).
Proof.
  refine (check_bot_callback_match (lit "tok") (lit "b1") (lit "https://old")
            two_bots _
            [(lit "bot_id", JStr (lit "b1"));
             (lit "callback_url", JStr (lit "https://old"))]
            [JDict [(lit "bot_id", JStr (lit "b0"));
                    (lit "callback_url", JStr (lit "https://a"))]]
            [] (serving table_AB) eq_refl eq_refl eq_refl _ eq_refl eq_refl).
  repeat constructor; do 2 eexists; repeat split.
Defined.

Lemma add_command_then_answers_witness :
  outcome
    (process_message (human " !hi ")
       (final
          (monitor_iteration
             (mkTick
                (commands_json
                   (after (add_command (Some (lit " !hi ")) three_lines
                             (Written 9) (on_disk 1 table_AB))))
                (commands_json
                   (after (add_command (Some (lit " !hi ")) three_lines
                             (Written 9) (on_disk 1 table_AB)))))
             (serving (JDict []))))) =
    Ok (Some (lit "hello" ++ newline ++ lit "there")).
Proof.
  refine (proj2 (proj2
            (add_command_then_answers (serving (JDict [])) 1
               (as_dict table_AB) (lit " !hi ") three_lines 9
               (as_dict (human " !hi ")) (serving (JDict []))
               _ eq_refl eq_refl eq_refl eq_refl))).
  vm_compute. discriminate.
Defined.

Lemma add_command_keeps_existing_witness :
  after (add_command (Some (lit "!ping ")) three_lines (Written 9)
           (on_disk 1 table_AB)) = on_disk 1 table_AB.
Proof.
  refine (proj1 (proj2
            (add_command_keeps_existing (serving (JDict [])) 1
               (as_dict table_AB) (Some (lit "!ping ")) three_lines
               (Written 9) _))).
  right. eexists. reflexivity.
Defined.

Lemma delete_command_removes_one_witness :
  commands_json
    (after (delete_command (Some (lit "!ping")) (Written 9)
              (on_disk 1 table_AB))) =
    Present 9
      (Some (JDict [(lit "!info", JList [record "line1"; record "line2"])])).
Proof.
  refine (proj1 (proj2
            (delete_command_removes_one (serving (JDict [])) 1
               (as_dict table_AB) (lit "!ping") (JList [record "pong"]) 9
               _ eq_refl))).
  discriminate.
Defined.

Lemma save_command_replaces_one_witness :
  commands_json
    (after (save_command (lit "!ping") three_lines (Written 9)
              (on_disk 1 table_AB))) =
    Present 9
      (Some (JDict [(lit "!ping", JList [record "hello"; record "there"]);
                    (lit "!info", JList [record "line1"; record "line2"])])).
Proof.
  exact (proj1 (proj2
           (save_command_replaces_one (serving (JDict [])) 1
              (as_dict table_AB) (lit "!ping") (JList [record "pong"])
              three_lines 9 eq_refl))).
Defined.

Lemma unknown_command_not_written_witness :
  after (delete_command (Some (lit "!nope")) (Written 9)
           (on_disk 1 table_AB)) = on_disk 1 table_AB.
Proof.
  exact (proj1 (proj2 (proj2
           (unknown_command_not_written (serving (JDict [])) 1
              (as_dict table_AB) (lit "!nope") three_lines (Written 9)
              eq_refl)))).
Defined.

Lemma save_commands_failure_witness :
  save_command (lit "!ping") three_lines (OpenFailed 13) (on_disk 1 table_AB) =
    ([Did OpenCommands; Did (Log INFO CommandsLoaded); OpenW;
      Note ERROR (ErrorSaving (OSError 13));
      Note ERROR (ErrorSavingCommand (lit "!ping") (OSError 13));
      Flash (ErrorText (OSError 13)) error_category],
     on_disk 1 table_AB,
     Done (RedirectTo (lit "edit_command") [(lit "command", lit "!ping")])).
Proof.
  refine (proj1 (proj2
            (save_commands_failure (serving (JDict [])) 1 (as_dict table_AB)
               13 JNull no_file (lit "!ping") (JList [record "pong"])
               three_lines _ eq_refl))).
  discriminate.
Defined.

Lemma add_command_broken_file_witness :
  result_of (add_command (Some (lit "!hi")) three_lines (Written 9) no_file) =
    Thrown (UnboundLocalError (lit "new_command")).
Proof.
  exact (proj1 (add_command_broken_file no_file I (Some (lit "!hi"))
                  three_lines (Written 9))).
Defined.

Lemma broken_file_not_overwritten_witness :
  after (save_command (lit "!ping") three_lines (Written 9) no_file) =
    no_file /\
  after (delete_command (Some (lit "!ping")) (Written 9) no_file) = no_file.
Proof.
  pose proof (broken_file_not_overwritten no_file I (lit "!ping")
                (Some (lit "!ping")) three_lines (Written 9))
    as [[_ [H _]] [_ [G _]]].
  split; [exact H|exact G].
Defined.

Lemma require_auth_guards_witness :
  require_auth [] (Some (Some (lit "admin"), Some (lit "secret")))
    show_commands (on_disk 1 table_AB) = show_commands (on_disk 1 table_AB) /\
  require_auth [] None show_commands (on_disk 1 table_AB) =
    ([], on_disk 1 table_AB, Done LoginRequired) /\
  require_auth [] (Some (None, None)) show_commands (on_disk 1 table_AB) =
    ([], on_disk 1 table_AB, Done LoginRequired) /\
  require_auth [(lit "admin_username", JNull); (lit "admin_password", JNull)]
    (Some (None, None)) show_commands (on_disk 1 table_AB) =
    show_commands (on_disk 1 table_AB).
Proof.
  split; [|split; [|split]].
  - exact (proj2 (require_auth_guards []
                    (Some (Some (lit "admin"), Some (lit "secret")))
                    show_commands (on_disk 1 table_AB))
             (Some (lit "admin")) (Some (lit "secret"))
             eq_refl eq_refl eq_refl).
  - apply (proj1 (require_auth_guards [] None show_commands
                    (on_disk 1 table_AB))).
    intros u p H. discriminate H.
  - apply (proj1 (require_auth_guards [] (Some (None, None)) show_commands
                    (on_disk 1 table_AB))).
    intros u p H Hu. injection H as <- <-. discriminate Hu.
  - exact (proj2 (require_auth_guards
                    [(lit "admin_username", JNull); (lit "admin_password", JNull)]
                    (Some (None, None)) show_commands (on_disk 1 table_AB))
             None None eq_refl eq_refl eq_refl).
Defined.

Lemma setup_bot_keeps_saved_group_witness :
  result_of
    (setup_bot (lit "tok") (lit "https://cb") (Some (lit "g2"))
       (Ok (ok_reply (JDict ann))) (Ok (ok_reply (JList two_groups)))
       no_file) = Done (JStr (lit "g2")).
Proof.
  refine (setup_bot_keeps_saved_group (serving (JDict [])) Missing
            (lit "tok") (lit "https://cb") ann
            (JStr (lit "Ann")) (JStr (lit "u1")) eq_refl eq_refl
            two_groups _ (lit "g2") (group "Work" "g2") _ _ _).
  - repeat constructor; do 3 eexists; repeat split.
  - discriminate.
  - right. now left.
  - do 2 eexists. repeat split.
Defined.

Lemma setup_bot_falls_back_to_first_witness :
  result_of
    (setup_bot (lit "tok") (lit "https://cb") None
       (Ok (ok_reply (JDict ann))) (Ok (ok_reply (JList two_groups)))
       no_file) = Done (JStr (lit "g1")).
Proof.
  refine (setup_bot_falls_back_to_first (serving (JDict [])) Missing
            (lit "tok") (lit "https://cb") ann
            (JStr (lit "Ann")) (JStr (lit "u1")) eq_refl eq_refl
            two_groups _ None (group "Family" "g1") (JStr (lit "g1"))
            [group "Work" "g2"] eq_refl _ _).
  - repeat constructor; do 3 eexists; repeat split.
  - do 2 eexists. repeat split.
  - now left.
Defined.

Lemma setup_bot_fatal_witness :
  result_of
    (setup_bot (lit "tok") (lit "https://cb") (Some (lit "g2"))
       (Ok (ok_reply (JDict ann))) (Ok (ok_reply (JList []))) no_file) =
    Thrown (Failure NoGroupsFound).
Proof.
  exact (f_equal snd
           (proj2 (setup_bot_fatal (serving (JDict [])) Missing (lit "tok")
                     (lit "https://cb") (Some (lit "g2"))
                     (mkResponse 401 (lit "") (Raise JSONDecodeError))
                     (Raise ConnectionError) ann
                     (JStr (lit "Ann")) (JStr (lit "u1")) (JList []))
              eq_refl eq_refl eq_refl)).
Defined.

Lemma setup_bot_returns_listed_group_witness :
  exists resp body groups g,
    Ok (ok_reply (JList two_groups)) = Ok resp /\ status_code resp = 200%Z /\
    json_body resp = Ok (JDict body) /\
    dict_lookup body (lit "response") = Some (JList groups) /\
    In g groups /\ group_with_id (JStr (lit "g1")) g.
Proof.
  exact (setup_bot_returns_listed_group (lit "tok") (lit "https://cb")
           (Some (lit "zz")) (Ok (ok_reply (JDict ann)))
           (Ok (ok_reply (JList two_groups))) no_file (JStr (lit "g1"))
           eq_refl).
Defined.

Lemma get_group_messages_not_modified_witness :
  result_of
    (get_group_messages (lit "tok") (lit "g1") (Some (lit "m7"))
       (Ok (mkResponse 304 (lit "") (Raise JSONDecodeError))) no_file) =
    Done (JList []).
Proof.
  exact (f_equal snd
           (get_group_messages_not_modified (lit "tok") no_file (lit "g1")
              (Some (lit "m7"))
              (mkResponse 304 (lit "") (Raise JSONDecodeError)) eq_refl)).
Defined.

End MoreInstances.
